(** * The watershed delineator page: a shallow embedding of the Streamlit script

    The program is one Streamlit script, [app last delineated.py].  Streamlit
    re-executes the script from its first line at every user interaction; what
    survives between two executions is the dictionary [st.session_state].

    The embedding follows the script statement by statement:
    - [st.session_state] is a finite map from keys to Python values;
    - Python floats are IEEE binary64 numbers (Rocq's primitive floats), so
      that [x != x] and the arithmetic on bounds are the ones Python runs;
    - the calls of the script into its collaborators (the delineation routine,
      the file system, fiona and geopandas, folium) are fields of a [World];
    - a statement is a computation of the monad [M]: it reads and updates the
      session, appends to the rendered page, and may raise. *)

From Stdlib Require Import Floats.
From stdpp Require Import base option list strings gmap.

Set Warnings "-inexact-float,-register-all".
#[local] Open Scope string_scope.
#[local] Open Scope list_scope.

(** ** Python values kept in the session *)

(** A map click as [st_folium] reports it: [{"lat": ..., "lng": ...}]. *)
Record Click := mkClick { lat : float; lng : float }.

Inductive Value :=
| VNone
| VFloat (x : float)
| VStr (s : string)
| VList (l : list Value)
| VLatLng (c : Click).

(** Python truthiness, as [if v:] and [v and ...] test it.  A click
    dictionary has two keys, so it is never empty. *)
Definition truthy (v : Value) : bool :=
  match v with
  | VNone => false
  | VFloat x => negb (PrimFloat.eqb x 0%float)
  | VStr s => negb (String.eqb s "")
  | VList l => negb (Nat.eqb (length l) 0)
  | VLatLng _ => true
  end.

(** ** Collaborators *)

(** [GeoDataFrame.total_bounds]: the array [minx, miny, maxx, maxy]. *)
Record Bounds := mkBounds { b0 : float; b1 : float; b2 : float; b3 : float }.

Definition bounds_list (b : Bounds) : list float := [b0 b; b1 b; b2 b; b3 b].

(** What the script uses of a [GeoDataFrame]. *)
Record GeoDataFrame := mkGdf { to_json : string; total_bounds : Bounds }.

Definition bytes := list Byte.byte.

(** One field per external call of the script.  [None] stands for the call
    raising an exception. *)
Record World := mkWorld {
  delineate_point : float -> float -> string -> option float -> option string;
  path_exists : string -> bool;
  listlayers : string -> option (list string);
  read_file : string -> option string -> option GeoDataFrame;
  fit_bounds_ok : Value -> bool;
  open_read : string -> option bytes
}.

(** The widget values of one execution of the script. *)
Record Inputs := mkInputs {
  reset_clicked : bool;
  wid_text : option string;
  area_input : option float;
  delineate_clicked : bool;
  last_clicked : option Click
}.

(** [st.text_input(label, value=v)]: the text typed by the user, [v] while the
    field has not been edited. *)
Definition text_input (value : string) (typed : option string) : string :=
  default value typed.

(** ** The rendered page *)

Inductive Msg :=
| SelectedPoint (la lo : float)
| GpkgNotCreated (path : string)
| DelineationComplete
| OutputFile (path : string)
| AvailableLayers (layers : list string)
| StreamsNotFound
| SnapPointNotFound
| RequestedPointNotFound
| InvalidBounds
| CenterIs (c : Value)
| BoundsAre (b : Value)
| FailedToLoad (e : string)
| CouldNotFitBounds (e : string).

(** [style_function] of a [folium.GeoJson], a constant function in the
    script. *)
Record Style := mkStyle {
  fillColor : option string;
  color : string;
  weight : Z;
  fillOpacity : option float
}.

(** [folium.CircleMarker(radius, color, fill, fill_opacity)]. *)
Record CircleMarker := mkMarker {
  radius : Z;
  marker_color : string;
  fill : bool;
  fill_opacity : float
}.

Inductive Child :=
| LatLngPopup
| GeoJson (data : Value) (name : string) (style : option Style)
          (marker : option CircleMarker) (tooltip : string)
| LayerControl.

Record FoliumMap := mkMap {
  location : Value;
  zoom_start : Z;
  tiles : string;
  children : list Child;
  fitted : option Value
}.

Inductive Data := DBytes (b : bytes) | DText (v : Value).

Inductive Element :=
| StWrite (m : Msg)
| StError (m : Msg)
| StWarning (m : Msg)
| StSuccess (m : Msg)
| StSpinner
| StFolium (m : FoliumMap)
| StDownload (label : string) (data : Data) (file_name : string).

(** A call of the delineation routine, with its four arguments. *)
Record Call := mkCall {
  call_lat : float; call_lon : float;
  call_wid : string; call_area : option float
}.

(** ** Exceptions *)

Inductive Exn :=
| RerunException
| KeyError (k : string)
| TypeError
| ValueError
| DelineatorError
| FionaError
| ReadFileError (layer : option string)
| FitBoundsError
| OpenError (path : string).

(** [except Exception] catches everything but Streamlit's script-control
    exceptions, which derive from [BaseException]. *)
Definition is_Exception (e : Exn) : bool :=
  match e with RerunException => false | _ => true end.

Definition exn_text (e : Exn) : string :=
  match e with
  | RerunException => "rerun"
  | KeyError k => k
  | TypeError => "type error"
  | ValueError => "value error"
  | DelineatorError => "delineator"
  | FionaError => "fiona"
  | ReadFileError None => "read_file"
  | ReadFileError (Some l) => "read_file " +:+ l
  | FitBoundsError => "fit_bounds"
  | OpenError p => p
  end.

(** ** The monad of script statements *)

Record Store := mkStore {
  session : gmap string Value;
  page : list Element;
  calls : list Call
}.

Inductive Res (A : Type) :=
| Val (a : A)
| Exc (e : Exn).
Arguments Val {A} a.
Arguments Exc {A} e.

Definition M (A : Type) : Type := Store -> Res A * Store.

Definition ret {A} (a : A) : M A := fun st => (Val a, st).

Definition bind {A B} (m : M A) (k : A -> M B) : M B :=
  fun st =>
    match m st with
    | (Val a, st') => k a st'
    | (Exc e, st') => (Exc e, st')
    end.

Definition raise {A} (e : Exn) : M A := fun st => (Exc e, st).

(** [try: m  except Exception as e: h e] *)
Definition try_except {A} (m : M A) (h : Exn -> M A) : M A :=
  fun st =>
    match m st with
    | (Exc e, st') => if is_Exception e then h e st' else (Exc e, st')
    | r => r
    end.

Declare Scope script_scope.
Delimit Scope script_scope with script.
Notation "'let*' x ':=' m 'in' k" := (bind m (fun x => k))
  (at level 10, x name, m at level 100, k at level 200) : script_scope.
Notation "m ';;' k" := (bind m (fun _ => k))
  (at level 100, k at level 200, right associativity) : script_scope.
#[local] Open Scope script_scope.

Definition when (b : bool) (m : M unit) : M unit :=
  if b then m else ret tt.

(** Session primitives. *)
Definition contains (k : string) : M bool :=
  fun st => (Val (bool_decide (is_Some (session st !! k))), st).

Definition getitem (k : string) : M Value :=
  fun st =>
    match session st !! k with
    | Some v => (Val v, st)
    | None => (Exc (KeyError k), st)
    end.

Definition get_default (k : string) (d : Value) : M Value :=
  fun st => (Val (default d (session st !! k)), st).

Definition setitem (k : string) (v : Value) : M unit :=
  fun st => (Val tt, mkStore (<[k := v]> (session st)) (page st) (calls st)).

Definition session_clear : M unit :=
  fun st => (Val tt, mkStore ∅ (page st) (calls st)).

(** Page primitives. *)
Definition show (e : Element) : M unit :=
  fun st => (Val tt, mkStore (session st) (page st ++ [e]) (calls st)).

Definition st_write m := show (StWrite m).
Definition st_error m := show (StError m).
Definition st_warning m := show (StWarning m).
Definition st_success m := show (StSuccess m).

(** Lifting a collaborator's answer: [None] raises [e]. *)
Definition call {A} (r : option A) (e : Exn) : M A :=
  match r with Some a => ret a | None => raise e end.

Definition log_call (c : Call) : M unit :=
  fun st => (Val tt, mkStore (session st) (page st) (calls st ++ [c])).

(** [v["lat"]] and [v["lng"]] on a session value. *)
Definition subscript_lat (v : Value) : M float :=
  match v with VLatLng c => ret (lat c) | _ => raise TypeError end.
Definition subscript_lng (v : Value) : M float :=
  match v with VLatLng c => ret (lng c) | _ => raise TypeError end.

Definition as_str (v : Value) : M string :=
  match v with VStr s => ret s | _ => raise TypeError end.

(** [Path(p).name]: the last component of the path, empty components and
    [.] left out as [pathlib] does. *)
Definition slash : Ascii.ascii := Ascii.ascii_of_nat 47.

Fixpoint path_parts (cur p : string) : list string :=
  match p with
  | EmptyString => [cur]
  | String c r =>
      if Ascii.eqb c slash then cur :: path_parts "" r
      else path_parts (cur +:+ String c "") r
  end.

Definition path_name (p : string) : string :=
  default "" (last (filter (λ c, c ≠ "" ∧ c ≠ ".") (path_parts "" p))).

(** ** The script *)

Module App.

(** Lines 54-68: one optional layer, read with its fallback. *)
Definition optional_layer (w : World) (gpkg_path key layer : string)
    (not_found : Msg) : M unit :=
  try_except
    (let* gdf := call (read_file w gpkg_path (Some layer))
                      (ReadFileError (Some layer)) in
     setitem key (VStr (to_json gdf)))
    (fun _ => st_warning not_found).

(** Line 72: [x is None or x != x].  [total_bounds] is a float64 array, no
    element of which is [None]. *)
Definition is_None (x : float) : bool := false.
Definition invalid_bound (x : float) : bool :=
  is_None x || negb (PrimFloat.eqb x x).

Definition center_of (lo hi : float) : float :=
  PrimFloat.div (PrimFloat.add lo hi) 2%float.

Definition center_value (bounds : Bounds) : Value :=
  VList [VFloat (center_of (b1 bounds) (b3 bounds));
         VFloat (center_of (b0 bounds) (b2 bounds))].

Definition bounds_value (bounds : Bounds) : Value :=
  VList [VList [VFloat (b1 bounds); VFloat (b0 bounds)];
         VList [VFloat (b3 bounds); VFloat (b2 bounds)]].

(** Lines 70-80: the bounding box. *)
Definition bounding_box (bounds : Bounds) : M unit :=
  if existsb invalid_bound (bounds_list bounds) then st_warning InvalidBounds
  else
    setitem "map_center" (center_value bounds) ;;
    setitem "map_bounds" (bounds_value bounds) ;;
    let* c := getitem "map_center" in
    st_write (CenterIs c) ;;
    let* b := getitem "map_bounds" in
    st_write (BoundsAre b).

(** Lines 45-83: loading the layers of the GeoPackage. *)
Definition load_layers (w : World) (gpkg_path : string) : M unit :=
  try_except
    (let* available_layers := call (listlayers w gpkg_path) FionaError in
     st_write (AvailableLayers available_layers) ;;
     let* watershed_gdf := call (read_file w gpkg_path None)
                                (ReadFileError None) in
     setitem "geojson" (VStr (to_json watershed_gdf)) ;;
     optional_layer w gpkg_path "streams" "streams" StreamsNotFound ;;
     optional_layer w gpkg_path "snap_point" "snap_point" SnapPointNotFound ;;
     optional_layer w gpkg_path "requested_point" "pour_point"
                    RequestedPointNotFound ;;
     bounding_box (total_bounds watershed_gdf))
    (fun e => st_error (FailedToLoad (exn_text e))).

(** Lines 32-83: the body of [if ... st.button("Delineate")]. *)
Definition delineate (w : World) (wid : string) (area : option float)
    : M unit :=
  let* click := getitem "last_click" in
  let* la := subscript_lat click in
  let* click := getitem "last_click" in
  let* lo := subscript_lng click in
  st_write (SelectedPoint la lo) ;;
  show StSpinner ;;
  log_call (mkCall la lo wid area) ;;
  let* gpkg_path := call (delineate_point w la lo wid area) DelineatorError in
  if negb (path_exists w gpkg_path) then st_error (GpkgNotCreated gpkg_path)
  else
    st_success DelineationComplete ;;
    st_write (OutputFile gpkg_path) ;;
    setitem "gpkg_path" (VStr gpkg_path) ;;
    load_layers w gpkg_path.

(** Lines 86-88. *)
Definition default_center : Value := VList [VFloat 4.6%float; VFloat (-74.1)%float].

(** [folium.Map(location=..., zoom_start=9, tiles=...)] once its location is
    accepted, with the click popup of line 88. *)
Definition blank_map (loc : Value) : FoliumMap :=
  mkMap loc 9 "OpenStreetMap" [LatLngPopup] None.

(** Line 87.  [folium.Map] validates its location before it builds the
    map, and raises a [ValueError] when a coordinate is NaN.  The location
    is the default or what line 77 stored, a list of two floats.  A value
    of any other shape, which no line of the script stores under
    [map_center], is refused as well: with a [TypeError] when it is not a
    sequence, with a [ValueError] otherwise. *)
Definition new_map (loc : Value) : M FoliumMap :=
  match loc with
  | VList [VFloat a; VFloat b] =>
      if is_nan a || is_nan b then raise ValueError else ret (blank_map loc)
  | VList _ | VStr _ => raise ValueError
  | VNone | VFloat _ | VLatLng _ => raise TypeError
  end.

Definition add_to (c : Child) (m : FoliumMap) : FoliumMap :=
  mkMap (location m) (zoom_start m) (tiles m) (children m ++ [c]) (fitted m).

(** Lines 91-129: one overlay, drawn when its key is in the session. *)
Definition overlay (key name : string) (style : option Style)
    (marker : option CircleMarker) (tooltip : string) (m : FoliumMap)
    : M FoliumMap :=
  let* present := contains key in
  if present then
    let* v := getitem key in
    ret (add_to (GeoJson v name style marker tooltip) m)
  else ret m.

Definition watershed_style : Style :=
  mkStyle (Some "#fdd") "red" 3 (Some 0.4%float).
Definition rivers_style : Style := mkStyle None "blue" 2 None.
Definition requested_marker : CircleMarker := mkMarker 6 "cyan" true 1%float.
Definition snapped_marker : CircleMarker := mkMarker 6 "magenta" true 1%float.

(** Lines 131-136. *)
Definition fit_bounds (w : World) (m : FoliumMap) : M FoliumMap :=
  let* present := contains "map_bounds" in
  if present then
    try_except
      (let* b := getitem "map_bounds" in
       if fit_bounds_ok w b
       then ret (mkMap (location m) (zoom_start m) (tiles m) (children m)
                       (Some b))
       else raise FitBoundsError)
      (fun e => st_warning (CouldNotFitBounds (exn_text e)) ;; ret m)
  else ret m.

(** Lines 86-140: the map, up to its display. *)
Definition render_map (w : World) : M FoliumMap :=
  let* map_location := get_default "map_center" default_center in
  let* m := new_map map_location in
  let* m := overlay "geojson" "Watershed" (Some watershed_style) None
                    "Watershed" m in
  let* m := overlay "streams" "Rivers" (Some rivers_style) None "Rivers" m in
  let* m := overlay "requested_point" "Requested" None
                    (Some requested_marker) "Requested outlet" m in
  let* m := overlay "snap_point" "Snapped to river centerline" None
                    (Some snapped_marker) "Snapped outlet" m in
  let* m := fit_bounds w m in
  let m := add_to LayerControl m in
  show (StFolium m) ;;
  ret m.

(** Lines 143-144: the click capture. *)
Definition click_capture (i : Inputs) : M unit :=
  let result := from_option VLatLng VNone (last_clicked i) in
  when (truthy result) (setitem "last_click" result).

(** Lines 147-152: the GeoPackage download. *)
Definition download_gpkg (w : World) : M unit :=
  let* has_gpkg := contains "gpkg_path" in
  when has_gpkg
    (let* p := getitem "gpkg_path" in
     let* path := as_str p in
     let* data := call (open_read w path) (OpenError path) in
     show (StDownload "Download GeoPackage" (DBytes data) (path_name path))).

(** Lines 154-160: the GeoJSON download. *)
Definition download_geojson (wid : string) : M unit :=
  let* has_geojson := contains "geojson" in
  when has_geojson
    (let* g := getitem "geojson" in
     show (StDownload "Download GeoJSON" (DText g) (wid +:+ ".geojson"))).

(** Lines 147-160: the download buttons. *)
Definition downloads (w : World) (wid : string) : M unit :=
  download_gpkg w ;;
  download_geojson wid.

(** The whole script, one execution. *)
Definition script (w : World) (i : Inputs) : M unit :=
  when (reset_clicked i) (session_clear ;; raise RerunException) ;;
  let* has_click := contains "last_click" in
  when (negb has_click) (setitem "last_click" VNone) ;;
  let wid := text_input "custom" (wid_text i) in
  let area := area_input i in
  let* click := getitem "last_click" in
  when (truthy click && delineate_clicked i) (delineate w wid area) ;;
  render_map w ;;
  click_capture i ;;
  downloads w wid.

(** A button is true only in the execution its click triggers. *)
Definition released (i : Inputs) : Inputs :=
  mkInputs false (wid_text i) (area_input i) false (last_clicked i).

(** One interaction: the script runs on the session left by the previous
    interaction; [st.experimental_rerun()] abandons the execution and starts
    the script again on a fresh page. *)
Definition interaction (w : World) (i : Inputs) (s : gmap string Value)
    : Res unit * Store :=
  match script w i (mkStore s [] []) with
  | (Exc RerunException, st) =>
      script w (released i) (mkStore (session st) [] [])
  | r => r
  end.

End App.

(** ** The effect of each block, as functions of the session

    The session and the page a block leaves behind, written as plain
    functions of the session it starts from.  The lemmas [*_exec] below prove
    that the script computes exactly these. *)

Module Effect.
Import App.

Definition store_layer (r : option GeoDataFrame) (key : string)
    (s : gmap string Value) : gmap string Value :=
  match r with Some gdf => <[key := VStr (to_json gdf)]> s | None => s end.

Definition layer_warning (r : option GeoDataFrame) (not_found : Msg)
    : list Element :=
  match r with Some _ => [] | None => [StWarning not_found] end.

Definition store_viewport (b : Bounds) (s : gmap string Value)
    : gmap string Value :=
  if existsb invalid_bound (bounds_list b) then s
  else <["map_bounds" := bounds_value b]> (<["map_center" := center_value b]> s).

Definition viewport_messages (b : Bounds) : list Element :=
  if existsb invalid_bound (bounds_list b) then [StWarning InvalidBounds]
  else [StWrite (CenterIs (center_value b));
        StWrite (BoundsAre (bounds_value b))].

Definition overlays_session (w : World) (p : string) (s : gmap string Value)
    : gmap string Value :=
  store_layer (read_file w p (Some "pour_point")) "requested_point"
    (store_layer (read_file w p (Some "snap_point")) "snap_point"
       (store_layer (read_file w p (Some "streams")) "streams" s)).

Definition overlay_warnings (w : World) (p : string) : list Element :=
  layer_warning (read_file w p (Some "streams")) StreamsNotFound ++
  layer_warning (read_file w p (Some "snap_point")) SnapPointNotFound ++
  layer_warning (read_file w p (Some "pour_point")) RequestedPointNotFound.

Definition loaded_session (w : World) (p : string) (s : gmap string Value)
    : gmap string Value :=
  match listlayers w p, read_file w p None with
  | Some _, Some gdf =>
      store_viewport (total_bounds gdf)
        (overlays_session w p (<["geojson" := VStr (to_json gdf)]> s))
  | _, _ => s
  end.

Definition load_messages (w : World) (p : string) : list Element :=
  match listlayers w p with
  | None => [StError (FailedToLoad (exn_text FionaError))]
  | Some layers =>
      StWrite (AvailableLayers layers) ::
      match read_file w p None with
      | None => [StError (FailedToLoad (exn_text (ReadFileError None)))]
      | Some gdf => overlay_warnings w p ++ viewport_messages (total_bounds gdf)
      end
  end.

Definition run_session (w : World) (p : string) (s : gmap string Value)
    : gmap string Value :=
  if path_exists w p then loaded_session w p (<["gpkg_path" := VStr p]> s)
  else s.

Definition run_messages (w : World) (p : string) : list Element :=
  if path_exists w p
  then [StSuccess DelineationComplete; StWrite (OutputFile p)]
       ++ load_messages w p
  else [StError (GpkgNotCreated p)].

Definition draw (key name : string) (style : option Style)
    (marker : option CircleMarker) (tooltip : string)
    (s : gmap string Value) (m : FoliumMap) : FoliumMap :=
  match s !! key with
  | Some v => add_to (GeoJson v name style marker tooltip) m
  | None => m
  end.

Definition fit (w : World) (s : gmap string Value) (m : FoliumMap)
    : FoliumMap :=
  match s !! "map_bounds" with
  | Some b =>
      if fit_bounds_ok w b
      then mkMap (location m) (zoom_start m) (tiles m) (children m) (Some b)
      else m
  | None => m
  end.

Definition fit_warning (w : World) (s : gmap string Value) : list Element :=
  match s !! "map_bounds" with
  | Some b =>
      if fit_bounds_ok w b then []
      else [StWarning (CouldNotFitBounds (exn_text FitBoundsError))]
  | None => []
  end.

Definition scene (w : World) (s : gmap string Value) : FoliumMap :=
  add_to LayerControl
    (fit w s
       (draw "snap_point" "Snapped to river centerline" None
             (Some snapped_marker) "Snapped outlet" s
          (draw "requested_point" "Requested" None (Some requested_marker)
                "Requested outlet" s
             (draw "streams" "Rivers" (Some rivers_style) None "Rivers" s
                (draw "geojson" "Watershed" (Some watershed_style) None
                      "Watershed" s
                   (blank_map (default default_center (s !! "map_center")))))))).

(** The location line 86 reads, and whether line 87 accepts it. *)
Definition centre (s : gmap string Value) : Value :=
  default default_center (s !! "map_center").

Definition valid_location (loc : Value) : bool :=
  match loc with
  | VList [VFloat a; VFloat b] => negb (is_nan a || is_nan b)
  | _ => false
  end.

Definition location_error (loc : Value) : Exn :=
  match loc with
  | VList _ | VStr _ => ValueError
  | _ => TypeError
  end.

Definition map_drawn (s : gmap string Value) : bool :=
  valid_location (centre s).

Definition captured (i : Inputs) (s : gmap string Value)
    : gmap string Value :=
  match last_clicked i with
  | Some c => <["last_click" := VLatLng c]> s
  | None => s
  end.

Definition geojson_button (wid : string) (s : gmap string Value)
    : list Element :=
  match s !! "geojson" with
  | Some g => [StDownload "Download GeoJSON" (DText g) (wid +:+ ".geojson")]
  | None => []
  end.

Definition download_buttons (w : World) (wid : string)
    (s : gmap string Value) : list Element :=
  match s !! "gpkg_path" with
  | Some (VStr p) =>
      match open_read w p with
      | Some data =>
          StDownload "Download GeoPackage" (DBytes data) (path_name p)
          :: geojson_button wid s
      | None => []
      end
  | Some _ => []
  | None => geojson_button wid s
  end.

Definition ensure_click (s : gmap string Value) : gmap string Value :=
  match s !! "last_click" with
  | Some _ => s
  | None => <["last_click" := VNone]> s
  end.

(** Lines 86-160, which every execution that gets past the button runs. *)
Definition finish (w : World) (i : Inputs) : M unit :=
  render_map w ;;
  click_capture i ;;
  downloads w (text_input "custom" (wid_text i)).

End Effect.

(** ** Reading the page and the session *)

(** The maps displayed on a page. *)
Definition rendered_maps (pg : list Element) : list FoliumMap :=
  omap (fun e => match e with StFolium m => Some m | _ => None end) pg.

(** The data offered by the download button labelled [label]. *)
Definition offered (label : string) (pg : list Element) : list Data :=
  omap (fun e => match e with
                 | StDownload l d _ => if String.eqb l label then Some d else None
                 | _ => None
                 end) pg.

(** The warnings of a page. *)
Definition warnings (pg : list Element) : list Msg :=
  omap (fun e => match e with StWarning m => Some m | _ => None end) pg.

(** The errors of a page. *)
Definition errors (pg : list Element) : list Msg :=
  omap (fun e => match e with StError m => Some m | _ => None end) pg.

(** Whether the page announces a completed delineation. *)
Definition announces_success (pg : list Element) : bool :=
  existsb (fun e => match e with
                    | StSuccess DelineationComplete => true
                    | _ => false
                    end) pg.

(** ** The run stored in a session *)

(** The seven keys the Delineate block writes, read as one record. *)
Record RunResult := mkRun {
  artifactPath : option Value;
  primaryLayer : option Value;
  streamsLayer : option Value;
  snapPoint : option Value;
  requestedPoint : option Value;
  mapCenter : option Value;
  mapBounds : option Value
}.

Definition run_of (s : gmap string Value) : RunResult :=
  mkRun (s !! "gpkg_path") (s !! "geojson") (s !! "streams")
        (s !! "snap_point") (s !! "requested_point")
        (s !! "map_center") (s !! "map_bounds").

(** The sessions a user can reach: the script replayed over a list of
    interactions, each with the answers of the collaborators at that time. *)
Fixpoint replay (steps : list (World * Inputs)) (s : gmap string Value)
    : gmap string Value :=
  match steps with
  | [] => s
  | (w, i) :: rest => replay rest (session (App.interaction w i s).2)
  end.

(** ** The specification's reading of a run

    These definitions follow the words of the specification, not the script;
    the theorems compare the script with them. *)

Module Spec.

(** A finite coordinate in range: latitude in [-90, 90], longitude in
    [-180, 180]. *)
Definition valid_coordinate (c : Click) : bool :=
  is_finite (lat c) && is_finite (lng c)
  && PrimFloat.leb (-90)%float (lat c) && PrimFloat.leb (lat c) 90%float
  && PrimFloat.leb (-180)%float (lng c) && PrimFloat.leb (lng c) 180%float.

(** An extent all four values of which are finite. *)
Definition finite_extent (b : Bounds) : bool :=
  forallb is_finite (bounds_list b).

(** The viewport of section 4.5: absent unless the extent is finite. *)
Definition viewport (b : Bounds) : option Value * option Value :=
  if finite_extent b
  then (Some (App.center_value b), Some (App.bounds_value b))
  else (None, None).

Definition layer_json (r : option GeoDataFrame) : option Value :=
  (fun gdf => VStr (to_json gdf)) <$> r.

(** The [RunResult] of section 4.4 for the artifact at [p]: none when the
    primary layer is unreadable, and each overlay present exactly when its
    layer is readable. *)
Definition load (w : World) (p : string) : option RunResult :=
  match read_file w p None with
  | None => None
  | Some gdf =>
      Some (mkRun (Some (VStr p)) (Some (VStr (to_json gdf)))
                  (layer_json (read_file w p (Some "streams")))
                  (layer_json (read_file w p (Some "snap_point")))
                  (layer_json (read_file w p (Some "pour_point")))
                  (viewport (total_bounds gdf)).1
                  (viewport (total_bounds gdf)).2)
  end.

(** Atomic replacement: the run stored after an invocation is the prior one,
    untouched, or the new one, whole. *)
Definition atomic_replacement (w : World) (p : string)
    (before after : gmap string Value) : Prop :=
  run_of after = run_of before \/ Some (run_of after) = load w p.

(** The overlays in their fixed order: session key, layer name, warning. *)
Definition overlay_kinds : list (string * string * Msg) :=
  [("streams", "streams", StreamsNotFound);
   ("snap_point", "snap_point", SnapPointNotFound);
   ("requested_point", "pour_point", RequestedPointNotFound)].

(** The set S: the overlays whose layer cannot be read from [p]. *)
Definition unreadable (w : World) (p : string) : list (string * string * Msg) :=
  List.filter (fun k => match read_file w p (Some k.1.2) with
                        | None => true
                        | Some _ => false
                        end) overlay_kinds.

(** Section 4.2: an out-of-range or non-finite click is a no-op. *)
Definition ignores_invalid_click (i : Inputs) (st : Store) : Prop :=
  forall c, last_clicked i = Some c -> valid_coordinate c = false ->
    session (App.click_capture i st).2 !! "last_click"
    = session st !! "last_click".

(** Section 4.5: an extent with a non-finite value leaves the viewport
    as it was and records a warning. *)
Definition rejects_non_finite (b : Bounds) (st : Store) : Prop :=
  finite_extent b = false ->
  session (App.bounding_box b st).2 = session st /\
  warnings (page (App.bounding_box b st).2)
  = warnings (page st) ++ [InvalidBounds].

(** Section 4.3: the routine is never invoked with an empty identifier. *)
Definition never_blank (cl : list Call) : Prop :=
  Forall (fun c => call_wid c <> "") cl.

(** A load that did not fail shows no error. *)
Definition load_succeeded (pg : list Element) : Prop := errors pg = [].

(** Section 4.4: the load succeeds exactly when the primary layer is
    readable. *)
Definition succeeds_iff_primary_readable (w : World) (p : string)
    (s : gmap string Value) : Prop :=
  load_succeeded (page (App.load_layers w p (mkStore s [] [])).2)
  <-> is_Some (read_file w p None).

(** A successful run: the page announces it and shows no error. *)
Definition run_succeeded (pg : list Element) : Prop :=
  announces_success pg = true /\ errors pg = [].

(** Section 4.7: the raw export is absent exactly when the run shown on
    the page, the only one of its session, did not succeed. *)
Definition export_absent_iff_no_success (pg : list Element) : Prop :=
  offered "Download GeoPackage" pg = [] <-> ~ run_succeeded pg.

End Spec.

(** ** Sessions the script can leave behind *)

(** The shape of a session the script has written: [last_click] holds [None]
    or a click, [gpkg_path] a string, and the keys of a run appear in the
    order the script writes them: the artifact path before the primary
    layer, the primary layer before any overlay or centre, centre and bounds
    together. *)
Definition well_formed (s : gmap string Value) : Prop :=
  (s !! "last_click" = None \/ s !! "last_click" = Some VNone \/
   exists c, s !! "last_click" = Some (VLatLng c)) /\
  (s !! "gpkg_path" = None \/ exists p, s !! "gpkg_path" = Some (VStr p)) /\
  (is_Some (s !! "geojson") -> is_Some (s !! "gpkg_path")) /\
  (is_Some (s !! "streams") -> is_Some (s !! "geojson")) /\
  (is_Some (s !! "snap_point") -> is_Some (s !! "geojson")) /\
  (is_Some (s !! "requested_point") -> is_Some (s !! "geojson")) /\
  (is_Some (s !! "map_center") -> is_Some (s !! "geojson")) /\
  (is_Some (s !! "map_center") <-> is_Some (s !! "map_bounds")).

(** The stored centre is absent or a list of two floats, as line 77
    writes it. *)
Definition centre_typed (s : gmap string Value) : Prop :=
  s !! "map_center" = None \/
  exists a b, s !! "map_center" = Some (VList [VFloat a; VFloat b]).

(** The exceptions an execution can end with besides returning: the routine
    failed, folium refused the location of the map, or the stored
    GeoPackage could not be opened. *)
Definition expected_result (r : Res unit) : Prop :=
  match r with
  | Val _ => True
  | Exc DelineatorError => True
  | Exc ValueError => True
  | Exc (OpenError _) => True
  | Exc _ => False
  end.

(** The layer the map draws for a session key: none when the key is not in
    the session. *)
Definition drawn (s : gmap string Value) (key name : string)
    (style : option Style) (marker : option CircleMarker) (tooltip : string)
    : list Child :=
  match s !! key with
  | Some v => [GeoJson v name style marker tooltip]
  | None => []
  end.

(** The keys the layer loading may write. *)
Definition layer_keys : list string :=
  ["geojson"; "streams"; "snap_point"; "requested_point";
   "map_center"; "map_bounds"].

(** ** Scenarios

    Concrete sessions of a user at Bogota, used to run the script. *)

Module Scenario.

Definition bogota : Click := mkClick 4.65%float (-74.05)%float.

Definition watershed (name : string) : GeoDataFrame :=
  mkGdf (name +:+ " watershed")
        (mkBounds (-74.3)%float 4.4%float (-73.9)%float 4.9%float).

Definition layer (name : string) : GeoDataFrame :=
  mkGdf name (mkBounds (-74.2)%float 4.5%float (-74.0)%float 4.8%float).

(** A GeoPackage at [path] holding a watershed and the given overlays. *)
Definition geopackage (path name : string) (overlays : list string)
    (p : string) (l : option string) : option GeoDataFrame :=
  if String.eqb p path then
    match l with
    | None => Some (watershed name)
    | Some o =>
        if bool_decide (o ∈ overlays) then Some (layer (name +:+ " " +:+ o))
        else None
    end
  else None.

(** The routine writes [path]; every file that exists can be opened. *)
Definition world (path : string) (written listed : bool)
    (read : string -> option string -> option GeoDataFrame) : World :=
  mkWorld (fun _ _ _ _ => Some path)
          (fun p => written && String.eqb p path)
          (fun p => if listed && String.eqb p path
                    then Some ["watershed"; "streams"; "snap_point"; "pour_point"]
                    else None)
          read
          (fun _ => true)
          (fun p => Some []).

Definition all_overlays : list string := ["streams"; "snap_point"; "pour_point"].

(** Every layer readable. *)
Definition complete : World :=
  world "/tmp/river1.gpkg" true true
        (geopackage "/tmp/river1.gpkg" "river1" all_overlays).

(** A second artifact, written without its streams layer. *)
Definition no_streams : World :=
  world "/tmp/river2.gpkg" true true
        (geopackage "/tmp/river2.gpkg" "river2" ["snap_point"; "pour_point"]).

(** A second artifact the primary layer of which cannot be read. *)
Definition unreadable_primary : World :=
  world "/tmp/river2.gpkg" true true (fun _ _ => None).

(** A second artifact the layers of which fiona cannot list. *)
Definition unlisted : World :=
  world "/tmp/river2.gpkg" true false
        (geopackage "/tmp/river2.gpkg" "river2" all_overlays).

(** The routine reports a path it did not write. *)
Definition missing : World :=
  world "/tmp/out.gpkg" false true (fun _ _ => None).

(** The user clicks on the map. *)
Definition click (c : Click) : Inputs := mkInputs false None None false (Some c).

(** The user presses Delineate, the identifier field left as it is. *)
Definition press : Inputs := mkInputs false None None true (Some bogota).

(** The user presses Delineate with the identifier field emptied. *)
Definition press_blank : Inputs :=
  mkInputs false (Some "") None true (Some bogota).

(** A new session in which the user has clicked at Bogota. *)
Definition clicked : gmap string Value := replay [(complete, click bogota)] ∅.

(** The same session after a first, complete run. *)
Definition first_run : gmap string Value :=
  replay [(complete, click bogota); (complete, press)] ∅.

(** A click east of the antimeridian, as Leaflet reports it on a wrapped map. *)
Definition wrapped : Click := mkClick 4.65%float 200%float.

(** An extent unbounded to the west. *)
Definition unbounded : Bounds :=
  mkBounds neg_infinity 1%float 2%float 3%float.

(** The routine raises: the point lies outside the supported domain. *)
Definition failing : World :=
  mkWorld (fun _ _ _ _ => None) (fun _ => false) (fun _ => None)
          (fun _ _ => None) (fun _ => true) (fun _ => None).

(** A second point, north of the first. *)
Definition zipaquira : Click := mkClick 5.02%float (-74.0)%float.

(** The user presses Delineate after moving the marker to the second point:
    the execution the press triggers reports the new click. *)
Definition press_elsewhere : Inputs :=
  mkInputs false None None true (Some zipaquira).

(** The page is drawn again with no button pressed and no click reported. *)
Definition idle : Inputs := mkInputs false None None false None.

(** The user presses Reset. *)
Definition reset : Inputs := mkInputs true None None false None.

End Scenario.

(** ** Executing the script *)

Ltac mstep1 :=
  unfold st_write, st_error, st_warning, st_success, show, setitem, log_call,
    session_clear, ret, raise;
  cbn [bind try_except when call contains getitem get_default
       session page calls is_Exception subscript_lat subscript_lng as_str].
Ltac mstep := repeat (progress mstep1).

Section Exec.
Import App Effect.

Lemma bind_val {A B} (m : M A) (k : A -> M B) st a st' :
  m st = (Val a, st') -> bind m k st = k a st'.
Proof. intros H. unfold bind. by rewrite H. Qed.

Lemma bind_exc {A B} (m : M A) (k : A -> M B) st e st' :
  m st = (Exc e, st') -> bind m k st = (Exc e, st').
Proof. intros H. unfold bind. by rewrite H. Qed.

Lemma bind_getitem {B} k (f : Value -> M B) (s : gmap string Value) pg cl v :
  s !! k = Some v ->
  bind (getitem k) f (mkStore s pg cl) = f v (mkStore s pg cl).
Proof. intros H. unfold bind, getitem. cbn [session]. by rewrite H. Qed.

Lemma optional_layer_exec w p key layer msg s pg cl :
  optional_layer w p key layer msg (mkStore s pg cl) =
  (Val tt, mkStore (store_layer (read_file w p (Some layer)) key s)
                   (pg ++ layer_warning (read_file w p (Some layer)) msg) cl).
Proof.
  unfold optional_layer. mstep.
  destruct (read_file w p (Some layer)); mstep; cbn [store_layer layer_warning].
  - by rewrite app_nil_r.
  - done.
Qed.

Lemma bounding_box_exec b s pg cl :
  bounding_box b (mkStore s pg cl) =
  (Val tt, mkStore (store_viewport b s) (pg ++ viewport_messages b) cl).
Proof.
  unfold bounding_box, store_viewport, viewport_messages.
  destruct (existsb invalid_bound (bounds_list b)); mstep; [done|].
  erewrite bind_getitem by (by simplify_map_eq). mstep.
  erewrite bind_getitem by (by simplify_map_eq). mstep.
  by rewrite <- app_assoc.
Qed.

Lemma load_layers_exec w p s pg cl :
  load_layers w p (mkStore s pg cl) =
  (Val tt, mkStore (loaded_session w p s) (pg ++ load_messages w p) cl).
Proof.
  unfold load_layers, loaded_session, load_messages, try_except, bind at 1.
  destruct (listlayers w p) as [layers|]; mstep; [|done].
  destruct (read_file w p None) as [gdf|]; mstep;
    [|by rewrite <- app_assoc].
  do 3 (erewrite bind_val by apply optional_layer_exec).
  rewrite bounding_box_exec.
  unfold overlays_session, overlay_warnings.
  by rewrite <- !app_assoc.
Qed.

Lemma delineate_exec w wid area s pg cl c :
  s !! "last_click" = Some (VLatLng c) ->
  delineate w wid area (mkStore s pg cl) =
  match delineate_point w (lat c) (lng c) wid area with
  | Some p =>
      (Val tt,
       mkStore (run_session w p s)
         (pg ++ [StWrite (SelectedPoint (lat c) (lng c)); StSpinner]
             ++ run_messages w p)
         (cl ++ [mkCall (lat c) (lng c) wid area]))
  | None =>
      (Exc DelineatorError,
       mkStore s (pg ++ [StWrite (SelectedPoint (lat c) (lng c)); StSpinner])
         (cl ++ [mkCall (lat c) (lng c) wid area]))
  end.
Proof.
  intros Hc. unfold delineate. erewrite bind_getitem by exact Hc. mstep.
  erewrite bind_getitem by exact Hc. mstep.
  unfold bind at 1. mstep. rewrite <- app_assoc. cbn [app].
  destruct (delineate_point w (lat c) (lng c) wid area) as [p|]; mstep;
    [|done].
  unfold run_session, run_messages.
  destruct (path_exists w p); cbn [negb]; mstep.
  - rewrite load_layers_exec. by rewrite <- !app_assoc.
  - by rewrite <- !app_assoc.
Qed.

Lemma overlay_exec key name style marker tooltip m s pg cl :
  overlay key name style marker tooltip m (mkStore s pg cl) =
  (Val (draw key name style marker tooltip s m), mkStore s pg cl).
Proof.
  unfold overlay, draw. mstep.
  destruct (s !! key) as [v|] eqn:Hk; cbn [bool_decide decide_rel]; mstep.
  - cbn. erewrite bind_getitem by exact Hk. done.
  - done.
Qed.

Lemma fit_bounds_exec w m s pg cl :
  App.fit_bounds w m (mkStore s pg cl) =
  (Val (fit w s m), mkStore s (pg ++ fit_warning w s) cl).
Proof.
  unfold App.fit_bounds, fit, fit_warning. mstep.
  destruct (s !! "map_bounds") as [b|] eqn:Hb; cbn; mstep.
  - unfold try_except. erewrite bind_getitem by exact Hb.
    destruct (fit_bounds_ok w b); mstep; by rewrite ?app_nil_r.
  - by rewrite app_nil_r.
Qed.

Lemma new_map_exec loc st :
  new_map loc st =
  if valid_location loc then (Val (blank_map loc), st)
  else (Exc (location_error loc), st).
Proof.
  unfold new_map, valid_location, location_error.
  destruct loc as [| | |[|[] [|[] []]]|]; try done.
  by destruct (is_nan x || is_nan x0).
Qed.

Lemma render_map_exec w s pg cl :
  render_map w (mkStore s pg cl) =
  if map_drawn s
  then (Val (scene w s),
        mkStore s (pg ++ fit_warning w s ++ [StFolium (scene w s)]) cl)
  else (Exc (location_error (centre s)), mkStore s pg cl).
Proof.
  unfold render_map, scene, map_drawn, centre. mstep.
  unfold bind at 1. rewrite new_map_exec.
  destruct (valid_location (default default_center (s !! "map_center")));
    [|done].
  do 4 (erewrite bind_val by apply overlay_exec).
  erewrite bind_val by apply fit_bounds_exec.
  mstep. by rewrite <- app_assoc.
Qed.

Lemma click_capture_exec i s pg cl :
  click_capture i (mkStore s pg cl) = (Val tt, mkStore (captured i s) pg cl).
Proof.
  unfold click_capture, captured.
  by destruct (last_clicked i); cbn [from_option truthy]; mstep.
Qed.

Lemma download_geojson_exec wid s pg cl :
  download_geojson wid (mkStore s pg cl) =
  (Val tt, mkStore s (pg ++ geojson_button wid s) cl).
Proof.
  unfold download_geojson, geojson_button. mstep.
  destruct (s !! "geojson") as [g|] eqn:Hg; cbn; mstep.
  - by erewrite bind_getitem by exact Hg.
  - by rewrite app_nil_r.
Qed.

Lemma download_gpkg_exec w s pg cl :
  download_gpkg w (mkStore s pg cl) =
  match s !! "gpkg_path" with
  | Some (VStr p) =>
      match open_read w p with
      | Some data =>
          (Val tt,
           mkStore s
             (pg ++ [StDownload "Download GeoPackage" (DBytes data)
                                (path_name p)]) cl)
      | None => (Exc (OpenError p), mkStore s pg cl)
      end
  | Some _ => (Exc TypeError, mkStore s pg cl)
  | None => (Val tt, mkStore s pg cl)
  end.
Proof.
  unfold download_gpkg. mstep.
  destruct (s !! "gpkg_path") as [v|] eqn:Hp; cbn; mstep; [|done].
  erewrite bind_getitem by exact Hp.
  destruct v; mstep; try done.
  by destruct (open_read w s0); mstep.
Qed.

Lemma downloads_exec w wid s pg cl :
  downloads w wid (mkStore s pg cl) =
  match s !! "gpkg_path" with
  | Some (VStr p) =>
      match open_read w p with
      | Some data =>
          (Val tt,
           mkStore s
             (pg ++ StDownload "Download GeoPackage" (DBytes data)
                               (path_name p) :: geojson_button wid s) cl)
      | None => (Exc (OpenError p), mkStore s pg cl)
      end
  | Some _ => (Exc TypeError, mkStore s pg cl)
  | None => (Val tt, mkStore s (pg ++ geojson_button wid s) cl)
  end.
Proof.
  unfold downloads, bind. rewrite download_gpkg_exec.
  destruct (s !! "gpkg_path") as [[]|]; try done.
  - destruct (open_read w s0); [|done].
    rewrite download_geojson_exec. by rewrite <- app_assoc.
  - by rewrite download_geojson_exec.
Qed.

Lemma finish_exec w i s pg cl :
  finish w i (mkStore s pg cl) =
  if map_drawn s
  then downloads w (text_input "custom" (wid_text i))
         (mkStore (captured i s)
                  (pg ++ fit_warning w s ++ [StFolium (scene w s)]) cl)
  else (Exc (location_error (centre s)), mkStore s pg cl).
Proof.
  unfold finish, bind at 1. rewrite render_map_exec.
  destruct (map_drawn s); [|done].
  erewrite bind_val by apply click_capture_exec.
  done.
Qed.

Lemma ensure_click_lookup s :
  exists v, ensure_click s !! "last_click" = Some v /\
            (s !! "last_click" = Some v \/
             s !! "last_click" = None /\ v = VNone).
Proof.
  unfold ensure_click. destruct (s !! "last_click") as [v|] eqn:H.
  - exists v. auto.
  - exists VNone. rewrite lookup_insert_eq. auto.
Qed.

Lemma ensure_click_present s v :
  s !! "last_click" = Some v -> ensure_click s = s.
Proof. intros H. unfold ensure_click. by rewrite H. Qed.

Lemma script_exec w i s :
  reset_clicked i = false ->
  script w i (mkStore s [] []) =
  (let* click := getitem "last_click" in
   when (truthy click && delineate_clicked i)
        (delineate w (text_input "custom" (wid_text i)) (area_input i)) ;;
   finish w i) (mkStore (ensure_click s) [] []).
Proof.
  intros Hr. unfold script, ensure_click, finish. rewrite Hr.
  unfold when at 1. mstep.
  by destruct (s !! "last_click"); cbn [bool_decide decide_rel]; cbn; mstep.
Qed.

Lemma script_idle w i s v :
  reset_clicked i = false ->
  ensure_click s !! "last_click" = Some v ->
  truthy v && delineate_clicked i = false ->
  script w i (mkStore s [] []) = finish w i (mkStore (ensure_click s) [] []).
Proof.
  intros Hr Hv Ht. rewrite script_exec by done.
  erewrite bind_getitem by exact Hv. rewrite Ht. by mstep.
Qed.

Lemma script_triggered w i s c :
  reset_clicked i = false ->
  delineate_clicked i = true ->
  s !! "last_click" = Some (VLatLng c) ->
  script w i (mkStore s [] []) =
  match delineate_point w (lat c) (lng c)
          (text_input "custom" (wid_text i)) (area_input i) with
  | Some p =>
      finish w i
        (mkStore (run_session w p s)
           ([StWrite (SelectedPoint (lat c) (lng c)); StSpinner]
              ++ run_messages w p)
           [mkCall (lat c) (lng c) (text_input "custom" (wid_text i))
                   (area_input i)])
  | None =>
      (Exc DelineatorError,
       mkStore s [StWrite (SelectedPoint (lat c) (lng c)); StSpinner]
         [mkCall (lat c) (lng c) (text_input "custom" (wid_text i))
                 (area_input i)])
  end.
Proof.
  intros Hr Hd Hc. rewrite script_exec by done.
  rewrite (ensure_click_present _ _ Hc).
  erewrite bind_getitem by exact Hc. rewrite Hd. cbn [truthy andb when].
  unfold bind at 1. rewrite (delineate_exec _ _ _ _ _ _ _ Hc).
  by destruct (delineate_point _ _ _ _ _).
Qed.

Lemma script_type_error w i s v :
  reset_clicked i = false ->
  delineate_clicked i = true ->
  s !! "last_click" = Some v ->
  truthy v = true ->
  (forall c, v <> VLatLng c) ->
  script w i (mkStore s [] []) = (Exc TypeError, mkStore s [] []).
Proof.
  intros Hr Hd Hv Ht Hn. rewrite script_exec by done.
  rewrite (ensure_click_present _ _ Hv).
  erewrite bind_getitem by exact Hv. rewrite Hd, Ht. cbn [andb when].
  unfold bind at 1, delineate. erewrite bind_getitem by exact Hv.
  destruct v; mstep; try done. by destruct (Hn c).
Qed.

Lemma script_reset w i s :
  reset_clicked i = true ->
  script w i (mkStore s [] []) = (Exc RerunException, mkStore ∅ [] []).
Proof. intros Hr. unfold script. rewrite Hr. by mstep. Qed.

Lemma downloads_not_rerun w wid st st' :
  downloads w wid st <> (Exc RerunException, st').
Proof.
  destruct st as [s pg cl]. rewrite downloads_exec.
  destruct (s !! "gpkg_path") as [[]|]; try done.
  by destruct (open_read w s0).
Qed.

Lemma finish_not_rerun w i st st' :
  finish w i st <> (Exc RerunException, st').
Proof.
  destruct st as [s pg cl]. rewrite finish_exec.
  destruct (map_drawn s); [apply downloads_not_rerun|].
  by destruct (centre s).
Qed.

Lemma downloads_session w wid st :
  session (downloads w wid st).2 = session st.
Proof.
  destruct st as [s pg cl]. rewrite downloads_exec.
  destruct (s !! "gpkg_path") as [[]|]; try done.
  by destruct (open_read w s0).
Qed.

Lemma downloads_calls w wid st :
  calls (downloads w wid st).2 = calls st.
Proof.
  destruct st as [s pg cl]. rewrite downloads_exec.
  destruct (s !! "gpkg_path") as [[]|]; try done.
  by destruct (open_read w s0).
Qed.

Lemma finish_session w i s pg cl :
  session (finish w i (mkStore s pg cl)).2
  = if map_drawn s then captured i s else s.
Proof.
  rewrite finish_exec. destruct (map_drawn s); [|done].
  by rewrite downloads_session.
Qed.

Lemma finish_calls w i s pg cl :
  calls (finish w i (mkStore s pg cl)).2 = cl.
Proof.
  rewrite finish_exec. destruct (map_drawn s); [|done].
  by rewrite downloads_calls.
Qed.

Lemma downloads_page w wid s pg cl :
  page (downloads w wid (mkStore s pg cl)).2 = pg ++ download_buttons w wid s.
Proof.
  rewrite downloads_exec. unfold download_buttons.
  destruct (s !! "gpkg_path") as [[]|]; cbn [snd page]; rewrite ?app_nil_r;
    try done.
  by destruct (open_read w s0); cbn [snd page]; rewrite ?app_nil_r.
Qed.

Lemma finish_page w i s pg cl :
  page (finish w i (mkStore s pg cl)).2 =
  if map_drawn s
  then pg ++ fit_warning w s ++ [StFolium (scene w s)]
          ++ download_buttons w (text_input "custom" (wid_text i))
                              (captured i s)
  else pg.
Proof.
  rewrite finish_exec. destruct (map_drawn s); [|done].
  rewrite downloads_page. by rewrite <- !app_assoc.
Qed.

Lemma geojson_button_cases wid s :
  geojson_button wid s = [] \/
  exists g, geojson_button wid s =
            [StDownload "Download GeoJSON" (DText g) (wid +:+ ".geojson")].
Proof. unfold geojson_button. destruct (s !! "geojson"); eauto. Qed.

Lemma download_buttons_only w wid s :
  Forall (fun e => exists l d f, e = StDownload l d f)
         (download_buttons w wid s).
Proof.
  assert (Hg : Forall (fun e => exists l d f, e = StDownload l d f)
                      (geojson_button wid s)).
  { destruct (geojson_button_cases wid s) as [->|[g ->]]; eauto 10. }
  unfold download_buttons.
  destruct (s !! "gpkg_path") as [[]|]; try done.
  destruct (open_read w s0); eauto 10.
Qed.

Lemma fit_warning_cases w s :
  fit_warning w s = [] \/
  fit_warning w s = [StWarning (CouldNotFitBounds (exn_text FitBoundsError))].
Proof.
  unfold fit_warning. destruct (s !! "map_bounds"); auto.
  destruct (fit_bounds_ok w v); auto.
Qed.

Lemma errors_downloads w wid s : errors (download_buttons w wid s) = [].
Proof.
  induction (download_buttons_only w wid s) as [|e l (?&?&?&->) _ IH]; done.
Qed.

Lemma maps_downloads w wid s : rendered_maps (download_buttons w wid s) = [].
Proof.
  induction (download_buttons_only w wid s) as [|e l (?&?&?&->) _ IH]; done.
Qed.

Lemma success_downloads w wid s :
  announces_success (download_buttons w wid s) = false.
Proof.
  induction (download_buttons_only w wid s) as [|e l (?&?&?&->) _ IH]; done.
Qed.

Lemma errors_app pg pg' : errors (pg ++ pg') = errors pg ++ errors pg'.
Proof. apply omap_app. Qed.

Lemma maps_app pg pg' :
  rendered_maps (pg ++ pg') = rendered_maps pg ++ rendered_maps pg'.
Proof. apply omap_app. Qed.

Lemma warnings_app pg pg' : warnings (pg ++ pg') = warnings pg ++ warnings pg'.
Proof. apply omap_app. Qed.

Lemma offered_app l pg pg' : offered l (pg ++ pg') = offered l pg ++ offered l pg'.
Proof. apply omap_app. Qed.

(** What the end of the script adds to a page: no error, no announcement,
    and one map, or none when folium refuses the stored centre. *)
Lemma finish_errors w i s pg cl :
  errors (page (finish w i (mkStore s pg cl)).2) = errors pg.
Proof.
  rewrite finish_page. destruct (map_drawn s); [|done].
  rewrite !errors_app, errors_downloads.
  destruct (fit_warning_cases w s) as [->| ->]; by rewrite app_nil_r.
Qed.

Lemma finish_success w i s pg cl :
  announces_success (page (finish w i (mkStore s pg cl)).2) =
  announces_success pg.
Proof.
  rewrite finish_page. destruct (map_drawn s); [|done].
  unfold announces_success.
  rewrite !existsb_app. fold (announces_success pg).
  fold (announces_success
          (download_buttons w (text_input "custom" (wid_text i))
                            (captured i s))).
  rewrite success_downloads.
  destruct (fit_warning_cases w s) as [->| ->]; cbn; by rewrite orb_false_r.
Qed.

Lemma finish_maps w i s pg cl :
  rendered_maps (page (finish w i (mkStore s pg cl)).2) =
  rendered_maps pg ++ (if map_drawn s then [scene w s] else []).
Proof.
  rewrite finish_page. destruct (map_drawn s); [|by rewrite app_nil_r].
  rewrite !maps_app, maps_downloads.
  destruct (fit_warning_cases w s) as [->| ->]; by rewrite app_nil_r.
Qed.

Lemma captured_other i s k :
  k <> "last_click" -> captured i s !! k = s !! k.
Proof.
  intros Hk. unfold captured. destruct (last_clicked i); [|done].
  by rewrite lookup_insert_ne.
Qed.

Lemma finish_other w i s pg cl k :
  k <> "last_click" ->
  session (finish w i (mkStore s pg cl)).2 !! k = s !! k.
Proof.
  intros Hk. rewrite finish_session.
  destruct (map_drawn s); [by apply captured_other|done].
Qed.

Lemma finish_run_of w i s pg cl :
  run_of (session (finish w i (mkStore s pg cl)).2) = run_of s.
Proof. unfold run_of. by rewrite !finish_other by done. Qed.

Lemma finish_drawn w i s pg cl :
  rendered_maps pg = [] ->
  rendered_maps (page (finish w i (mkStore s pg cl)).2) <> [] ->
  map_drawn s = true.
Proof.
  intros Hpg. rewrite finish_maps, Hpg. by destruct (map_drawn s).
Qed.

(** The default centre is accepted, in a session with no stored centre. *)
Lemma map_drawn_default s : s !! "map_center" = None -> map_drawn s = true.
Proof. intros H. unfold map_drawn, centre. by rewrite H. Qed.

(** The three ways an execution without reset can go. *)
Lemma script_outcome w i s :
  reset_clicked i = false ->
  (exists v, ensure_click s !! "last_click" = Some v /\
             truthy v && delineate_clicked i = false /\
             script w i (mkStore s [] []) =
             finish w i (mkStore (ensure_click s) [] []))
  \/ (exists c, s !! "last_click" = Some (VLatLng c) /\
                delineate_clicked i = true)
  \/ script w i (mkStore s [] []) = (Exc TypeError, mkStore s [] []).
Proof.
  intros Hr. destruct (ensure_click_lookup s) as (v & Hv & Hs).
  destruct (truthy v && delineate_clicked i) eqn:Ht.
  - apply andb_true_iff in Ht as [Ht Hd].
    destruct Hs as [Hs|[_ ->]]; [|done].
    destruct v; try done.
    + right; right. by eapply script_type_error.
    + right; right. by eapply script_type_error.
    + right; right. by eapply script_type_error.
    + right; left. by exists c.
  - left. exists v. split; [done|]. split; [done|]. by eapply script_idle.
Qed.

Lemma interaction_no_reset w i s :
  reset_clicked i = false ->
  interaction w i s = script w i (mkStore s [] []).
Proof.
  intros Hr. unfold interaction.
  destruct (script w i (mkStore s [] [])) as [[|e] st] eqn:E; [done|].
  destruct e; try done. exfalso.
  destruct (script_outcome w i s Hr) as [(v & _ & _ & H)|[(c & Hc & Hd)|H]].
  - rewrite H in E. by eapply finish_not_rerun.
  - rewrite (script_triggered _ _ _ _ Hr Hd Hc) in E.
    destruct (delineate_point _ _ _ _ _); [|done].
    by eapply finish_not_rerun.
  - by rewrite H in E.
Qed.

Lemma interaction_reset w i s :
  reset_clicked i = true ->
  interaction w i s =
  finish w (released i) (mkStore (<["last_click" := VNone]> ∅) [] []).
Proof.
  intros Hr. unfold interaction. rewrite script_reset by done.
  cbn [session]. erewrite script_idle; [done|done|..].
  - unfold ensure_click. rewrite lookup_empty. apply lookup_insert_eq.
  - done.
Qed.

End Exec.

(** ** Properties of the script *)

Section Properties.
Import App Effect.

Lemma run_of_captured i s : run_of (captured i s) = run_of s.
Proof.
  unfold captured, run_of. destruct (last_clicked i); [|done].
  by rewrite !lookup_insert_ne by done.
Qed.

Lemma draw_view key name style marker tooltip s m :
  location (draw key name style marker tooltip s m) = location m /\
  zoom_start (draw key name style marker tooltip s m) = zoom_start m /\
  fitted (draw key name style marker tooltip s m) = fitted m.
Proof. unfold draw. by destruct (s !! key). Qed.

Lemma fit_view w s m :
  location (fit w s m) = location m /\ zoom_start (fit w s m) = zoom_start m.
Proof.
  unfold fit. destruct (s !! "map_bounds") as [b|]; [|done].
  by destruct (fit_bounds_ok w b).
Qed.

Lemma scene_location w s :
  location (scene w s) = default default_center (s !! "map_center").
Proof.
  unfold scene. cbn [add_to location].
  rewrite (proj1 (fit_view _ _ _)).
  by rewrite !(proj1 (draw_view _ _ _ _ _ _ _)).
Qed.

Lemma scene_zoom w s : zoom_start (scene w s) = 9%Z.
Proof.
  unfold scene. cbn [add_to zoom_start].
  rewrite (proj2 (fit_view _ _ _)).
  by rewrite !(proj1 (proj2 (draw_view _ _ _ _ _ _ _))).
Qed.

Lemma loaded_session_other w p s k :
  k ∉ layer_keys -> loaded_session w p s !! k = s !! k.
Proof.
  unfold layer_keys. rewrite !not_elem_of_cons.
  intros (? & ? & ? & ? & ? & ? & _).
  unfold loaded_session, store_viewport, overlays_session.
  destruct (listlayers w p); [|done].
  destruct (read_file w p None) as [gdf|]; [|done].
  destruct (existsb invalid_bound (bounds_list (total_bounds gdf)));
    destruct (read_file w p (Some "streams"));
    destruct (read_file w p (Some "snap_point"));
    destruct (read_file w p (Some "pour_point"));
    cbn [store_layer]; by rewrite ?lookup_insert_ne by done.
Qed.

Lemma run_session_click w p s :
  run_session w p s !! "last_click" = s !! "last_click".
Proof.
  unfold run_session. destruct (path_exists w p); [|done].
  rewrite loaded_session_other.
  - by rewrite lookup_insert_ne.
  - unfold layer_keys. rewrite !not_elem_of_cons.
    repeat split; try done. apply not_elem_of_nil.
Qed.

Lemma loaded_session_path w p s :
  loaded_session w p s !! "gpkg_path" = s !! "gpkg_path".
Proof.
  unfold loaded_session, store_viewport, overlays_session.
  destruct (listlayers w p); [|done].
  destruct (read_file w p None) as [gdf|]; [|done].
  destruct (existsb invalid_bound (bounds_list (total_bounds gdf)));
    destruct (read_file w p (Some "streams"));
    destruct (read_file w p (Some "snap_point"));
    destruct (read_file w p (Some "pour_point"));
    cbn [store_layer]; by simplify_map_eq.
Qed.

Lemma loaded_session_center w p s :
  loaded_session w p s !! "map_center" =
  match listlayers w p, read_file w p None with
  | Some _, Some gdf =>
      if existsb is_nan (bounds_list (total_bounds gdf))
      then s !! "map_center"
      else Some (center_value (total_bounds gdf))
  | _, _ => s !! "map_center"
  end.
Proof.
  unfold loaded_session, store_viewport, overlays_session.
  destruct (listlayers w p); [|done].
  destruct (read_file w p None) as [gdf|]; [|done].
  change (existsb invalid_bound (bounds_list (total_bounds gdf)))
    with (existsb is_nan (bounds_list (total_bounds gdf))).
  destruct (existsb is_nan (bounds_list (total_bounds gdf)));
    destruct (read_file w p (Some "streams"));
    destruct (read_file w p (Some "snap_point"));
    destruct (read_file w p (Some "pour_point"));
    cbn [store_layer]; by simplify_map_eq.
Qed.

Lemma run_messages_maps w p : rendered_maps (run_messages w p) = [].
Proof.
  unfold run_messages, load_messages, overlay_warnings, viewport_messages.
  destruct (path_exists w p); [|done].
  destruct (listlayers w p); [|done].
  destruct (read_file w p None) as [gdf|]; [|done].
  by destruct (existsb invalid_bound (bounds_list (total_bounds gdf))),
       (read_file w p (Some "streams")),
       (read_file w p (Some "snap_point")),
       (read_file w p (Some "pour_point")).
Qed.

Lemma ensure_click_other s k :
  k <> "last_click" -> ensure_click s !! k = s !! k.
Proof.
  intros Hk. unfold ensure_click. destruct (s !! "last_click"); [done|].
  by rewrite lookup_insert_ne.
Qed.

(** The maps of an interaction: none when the script raised before the map
    setup, and otherwise the one scene of the session the click capture
    then completes. *)
Lemma interaction_maps w i s :
  rendered_maps (page (interaction w i s).2) = [] \/
  exists s', rendered_maps (page (interaction w i s).2) = [scene w s'] /\
             session (interaction w i s).2 !! "map_center"
             = s' !! "map_center".
Proof.
  assert (Hfin : forall i' s' pg cl, rendered_maps pg = [] ->
    rendered_maps (page (finish w i' (mkStore s' pg cl)).2) = [] \/
    (rendered_maps (page (finish w i' (mkStore s' pg cl)).2) = [scene w s'] /\
     session (finish w i' (mkStore s' pg cl)).2 !! "map_center"
     = s' !! "map_center")).
  { intros i' s' pg cl Hpg. rewrite finish_maps, finish_other, Hpg by done.
    destruct (map_drawn s'); auto. }
  destruct (reset_clicked i) eqn:Hr.
  - rewrite interaction_reset by done.
    destruct (Hfin (released i) (<["last_click":=VNone]> ∅) [] [] eq_refl)
      as [H|H]; eauto.
  - rewrite interaction_no_reset by done.
    destruct (script_outcome w i s Hr) as [(v & _ & _ & H)|[(c & Hc & Hd)|H]].
    + rewrite H. destruct (Hfin i (ensure_click s) [] [] eq_refl) as [H'|H'];
        eauto.
    + rewrite (script_triggered _ _ _ _ Hr Hd Hc).
      destruct (delineate_point _ _ _ _ _) as [p|]; [|by left].
      edestruct (Hfin i) as [H'|H']; [|left; exact H'|right; eexists; exact H'].
      by rewrite maps_app, run_messages_maps.
    + left. by rewrite H.
Qed.

(** C4.  When the routine returns a path [p] at which no file exists, the
    page shows the error naming [p] and no announcement of success, and the
    session keeps every key it had: the stored run is the one from before
    the call; only [last_click] may move, to the click the map reports. *)
Theorem missing_artifact_preserves_run w i s c p :
  reset_clicked i = false ->
  delineate_clicked i = true ->
  s !! "last_click" = Some (VLatLng c) ->
  delineate_point w (lat c) (lng c) (text_input "custom" (wid_text i))
                  (area_input i) = Some p ->
  path_exists w p = false ->
  errors (page (interaction w i s).2) = [GpkgNotCreated p] /\
  announces_success (page (interaction w i s).2) = false /\
  run_of (session (interaction w i s).2) = run_of s /\
  (forall k, k <> "last_click" -> session (interaction w i s).2 !! k = s !! k).
Proof.
  intros Hr Hd Hc Hp He.
  rewrite interaction_no_reset, (script_triggered _ _ _ _ Hr Hd Hc), Hp by done.
  rewrite finish_errors, finish_success, finish_run_of.
  unfold run_messages, run_session. rewrite He.
  repeat split; try done.
  intros k Hk. by rewrite finish_other.
Qed.

Lemma missing_artifact_witness :
  errors (page (interaction Scenario.missing Scenario.press
                            Scenario.clicked).2)
  = [GpkgNotCreated "/tmp/out.gpkg"] /\
  run_of (session (interaction Scenario.missing Scenario.press
                               Scenario.clicked).2)
  = run_of Scenario.clicked.
Proof.
  destruct (missing_artifact_preserves_run Scenario.missing Scenario.press
              Scenario.clicked Scenario.bogota "/tmp/out.gpkg")
    as (H1 & _ & H3 & _); [reflexivity | reflexivity | by vm_compute
                          | reflexivity | reflexivity |].
  exact (conj H1 H3).
Defined.

Lemma errors_run_messages w p :
  errors (run_messages w p)
  = if path_exists w p then
      match listlayers w p, read_file w p None with
      | Some _, Some _ => []
      | None, _ => [FailedToLoad (exn_text FionaError)]
      | Some _, None => [FailedToLoad (exn_text (ReadFileError None))]
      end
    else [GpkgNotCreated p].
Proof.
  unfold run_messages, load_messages, overlay_warnings, viewport_messages.
  destruct (path_exists w p); [|done].
  destruct (listlayers w p); [|done].
  destruct (read_file w p None) as [gdf|]; [|done].
  by destruct (existsb invalid_bound (bounds_list (total_bounds gdf))),
       (read_file w p (Some "streams")),
       (read_file w p (Some "snap_point")),
       (read_file w p (Some "pour_point")).
Qed.

(** C8, as the script has it.  The Delineate block calls the routine once,
    with the clicked point, the text of the identifier field as it is and
    the area field: the text is ["custom"] while the field is untouched, and
    whatever the user typed, the empty text included, afterwards.  The
    script surfaces no error for the identifier: the errors on the page are
    those of the artifact alone, none when the routine raises or when the
    file exists and its layers load, one when the file is missing, when its
    layers cannot be listed or when its primary layer cannot be read. *)
Theorem routine_receives_field_text w i s c :
  reset_clicked i = false ->
  delineate_clicked i = true ->
  s !! "last_click" = Some (VLatLng c) ->
  calls (interaction w i s).2
  = [mkCall (lat c) (lng c) (text_input "custom" (wid_text i)) (area_input i)]
  /\ (wid_text i = None ->
      call_wid <$> calls (interaction w i s).2 = ["custom"])
  /\ (forall t, wid_text i = Some t ->
      call_wid <$> calls (interaction w i s).2 = [t])
  /\ errors (page (interaction w i s).2)
     = match delineate_point w (lat c) (lng c)
               (text_input "custom" (wid_text i)) (area_input i) with
       | None => []
       | Some p =>
           if path_exists w p then
             match listlayers w p, read_file w p None with
             | Some _, Some _ => []
             | None, _ => [FailedToLoad (exn_text FionaError)]
             | Some _, None => [FailedToLoad (exn_text (ReadFileError None))]
             end
           else [GpkgNotCreated p]
       end.
Proof.
  intros Hr Hd Hc.
  assert (H : calls (interaction w i s).2
    = [mkCall (lat c) (lng c) (text_input "custom" (wid_text i))
              (area_input i)]).
  { rewrite interaction_no_reset, (script_triggered _ _ _ _ Hr Hd Hc) by done.
    destruct (delineate_point _ _ _ _ _); [|done]. apply finish_calls. }
  rewrite H. split; [done|]. split; [by intros ->|]. split; [by intros t ->|].
  rewrite interaction_no_reset, (script_triggered _ _ _ _ Hr Hd Hc) by done.
  destruct (delineate_point _ _ _ _ _) as [p|]; [|done].
  rewrite finish_errors, errors_app. apply errors_run_messages.
Qed.

Lemma routine_receives_field_text_witness :
  call_wid <$> calls (interaction Scenario.complete Scenario.press_blank
                                  Scenario.clicked).2 = [""] /\
  errors (page (interaction Scenario.complete Scenario.press_blank
                            Scenario.clicked).2) = [].
Proof.
  destruct (routine_receives_field_text Scenario.complete Scenario.press_blank
              Scenario.clicked Scenario.bogota) as (_ & _ & H & He);
    [reflexivity | reflexivity | by vm_compute |].
  split; [by apply H | exact He].
Defined.

(** C8, as the specification has it, fails: with the identifier field
    emptied, the routine is called with the empty identifier. *)
Lemma blank_identifier_reaches_routine :
  ~ Spec.never_blank
      (calls (interaction Scenario.complete Scenario.press_blank
                          Scenario.clicked).2).
Proof.
  intros H. vm_compute in H. by inversion_clear H as [|? ? Hne _].
Qed.

(** C6, as the script has it.  The click capture never raises and shows
    nothing; it stores every click the map reports as [last_click], in place
    of the one before, and leaves the session as it is when the map reports
    none.  An interaction that presses no button and displays its map
    ends with the click that map reports stored. *)
Theorem click_capture_stores_every_click i st :
  (click_capture i st).1 = Val tt /\
  page (click_capture i st).2 = page st /\
  (forall c, last_clicked i = Some c ->
     session (click_capture i st).2
     = <["last_click" := VLatLng c]> (session st)) /\
  (last_clicked i = None -> session (click_capture i st).2 = session st) /\
  (forall w s c, reset_clicked i = false -> delineate_clicked i = false ->
     last_clicked i = Some c ->
     rendered_maps (page (interaction w i s).2) <> [] ->
     session (interaction w i s).2 !! "last_click" = Some (VLatLng c)).
Proof.
  destruct st as [s pg cl]. rewrite click_capture_exec. cbn [fst snd page session].
  unfold captured. repeat split.
  - by intros c ->.
  - by intros ->.
  - intros w s' c Hr Hd Hc. rewrite interaction_no_reset by done.
    destruct (ensure_click_lookup s') as (v & Hv & _).
    erewrite script_idle; [|done|exact Hv|by rewrite Hd, andb_false_r].
    intros Hm%finish_drawn; [|done].
    rewrite finish_session, Hm. unfold captured. rewrite Hc.
    apply lookup_insert_eq.
Qed.

(** C6, as the specification has it, fails: a click at longitude 200 is out
    of range, and it replaces the stored click. *)
Lemma out_of_range_click_is_stored :
  ~ Spec.ignores_invalid_click (Scenario.click Scenario.wrapped)
      (mkStore Scenario.clicked [] []).
Proof.
  intros H. specialize (H Scenario.wrapped eq_refl eq_refl).
  vm_compute in H. discriminate H.
Qed.

(** C5, as the script has it.  The bounding-box block never raises.  When
    one of the four values is NaN it shows the warning and leaves the
    session as it is, so that the map drawn next is centred on the centre
    stored before, or on the default one, which folium always accepts.
    Otherwise, an infinite value
    included, it stores the centre [[(miny+maxy)/2, (minx+maxx)/2]] and the
    bounds [[[miny, minx], [maxy, maxx]]] and shows no warning. *)
Theorem bounding_box_checks_nan b s pg cl :
  (bounding_box b (mkStore s pg cl)).1 = Val tt /\
  (existsb is_nan (bounds_list b) = true ->
     session (bounding_box b (mkStore s pg cl)).2 = s /\
     page (bounding_box b (mkStore s pg cl)).2
     = pg ++ [StWarning InvalidBounds] /\
     forall w,
       (forall m,
          (render_map w (bounding_box b (mkStore s pg cl)).2).1 = Val m ->
          location m = default default_center (s !! "map_center")) /\
       (s !! "map_center" = None ->
        exists m,
          (render_map w (bounding_box b (mkStore s pg cl)).2).1 = Val m /\
          location m = default_center)) /\
  (existsb is_nan (bounds_list b) = false ->
     session (bounding_box b (mkStore s pg cl)).2 !! "map_center"
     = Some (VList [VFloat (PrimFloat.div (PrimFloat.add (b1 b) (b3 b)) 2);
                    VFloat (PrimFloat.div (PrimFloat.add (b0 b) (b2 b)) 2)]) /\
     session (bounding_box b (mkStore s pg cl)).2 !! "map_bounds"
     = Some (VList [VList [VFloat (b1 b); VFloat (b0 b)];
                    VList [VFloat (b3 b); VFloat (b2 b)]]) /\
     warnings (page (bounding_box b (mkStore s pg cl)).2) = warnings pg).
Proof.
  rewrite bounding_box_exec. cbn [fst snd session page].
  unfold store_viewport, viewport_messages.
  change (existsb invalid_bound (bounds_list b))
    with (existsb is_nan (bounds_list b)).
  split; [done|]. split; intros ->.
  - split; [done|]. split; [done|]. intros w.
    rewrite render_map_exec. split.
    + destruct (map_drawn s); [|done]. intros m [= <-].
      apply scene_location.
    + intros Hn. rewrite (map_drawn_default _ Hn). exists (scene w s).
      split; [done|]. by rewrite scene_location, Hn.
  - rewrite lookup_insert_ne by done. rewrite !lookup_insert_eq.
    split; [done|]. split; [done|].
    rewrite warnings_app. apply app_nil_r.
Qed.

(** C5, as the specification has it, fails: an extent unbounded to the west
    is not finite, and its viewport is stored all the same. *)
Lemma infinite_extent_is_stored :
  ~ Spec.rejects_non_finite Scenario.unbounded (mkStore ∅ [] []).
Proof.
  intros H. destruct (H eq_refl) as [Hs _].
  apply (f_equal (fun m : gmap string Value => m !! "map_center")) in Hs.
  vm_compute in Hs. discriminate Hs.
Qed.

(** C1, as the script has it.  A run that finds no artifact, or whose
    routine raises, leaves the stored run untouched.  A run whose artifact
    exists stores its path at once: when the layers cannot be listed or the
    primary layer cannot be read, the path is the only field replaced, and
    the primary layer, the overlays and the viewport stay those of the run
    before.  When the primary layer is read, path and primary layer are the
    new ones, together with every overlay that is readable, and the viewport
    is the new one unless a bound is NaN, in which case it stays. *)
Theorem run_installation w i s c :
  reset_clicked i = false ->
  delineate_clicked i = true ->
  s !! "last_click" = Some (VLatLng c) ->
  match delineate_point w (lat c) (lng c) (text_input "custom" (wid_text i))
                        (area_input i) with
  | None => run_of (session (interaction w i s).2) = run_of s
  | Some p =>
      if negb (path_exists w p)
      then run_of (session (interaction w i s).2) = run_of s
      else
        match listlayers w p, read_file w p None with
        | Some _, Some gdf =>
            let after := run_of (session (interaction w i s).2) in
            artifactPath after = Some (VStr p) /\
            primaryLayer after = Some (VStr (to_json gdf)) /\
            (forall g, read_file w p (Some "streams") = Some g ->
               streamsLayer after = Some (VStr (to_json g))) /\
            (forall g, read_file w p (Some "snap_point") = Some g ->
               snapPoint after = Some (VStr (to_json g))) /\
            (forall g, read_file w p (Some "pour_point") = Some g ->
               requestedPoint after = Some (VStr (to_json g))) /\
            (if existsb is_nan (bounds_list (total_bounds gdf))
             then mapCenter after = s !! "map_center" /\
                  mapBounds after = s !! "map_bounds"
             else mapCenter after = Some (center_value (total_bounds gdf)) /\
                  mapBounds after = Some (bounds_value (total_bounds gdf)))
        | _, _ =>
            run_of (session (interaction w i s).2)
            = mkRun (Some (VStr p)) (s !! "geojson") (s !! "streams")
                    (s !! "snap_point") (s !! "requested_point")
                    (s !! "map_center") (s !! "map_bounds")
        end
  end.
Proof.
  intros Hr Hd Hc.
  rewrite interaction_no_reset, (script_triggered _ _ _ _ Hr Hd Hc) by done.
  destruct (delineate_point _ _ _ _ _) as [p|]; [|done].
  rewrite finish_run_of. unfold run_session.
  destruct (path_exists w p); cbn [negb]; [|done].
  unfold loaded_session.
  assert (Hfail : run_of (<["gpkg_path":=VStr p]> s)
    = mkRun (Some (VStr p)) (s !! "geojson") (s !! "streams")
            (s !! "snap_point") (s !! "requested_point")
            (s !! "map_center") (s !! "map_bounds")).
  { unfold run_of. rewrite lookup_insert_eq.
    by rewrite !lookup_insert_ne by done. }
  destruct (listlayers w p); [|done].
  destruct (read_file w p None) as [gdf|]; [|done].
  unfold store_viewport, overlays_session, run_of.
  cbn [artifactPath primaryLayer streamsLayer snapPoint requestedPoint
       mapCenter mapBounds].
  change (existsb invalid_bound (bounds_list (total_bounds gdf)))
    with (existsb is_nan (bounds_list (total_bounds gdf))).
  destruct (existsb is_nan (bounds_list (total_bounds gdf)));
    destruct (read_file w p (Some "streams"));
    destruct (read_file w p (Some "snap_point"));
    destruct (read_file w p (Some "pour_point"));
    cbn [store_layer]; repeat split; intros; by simplify_map_eq.
Qed.

Lemma run_installation_witness :
  run_of (session (interaction Scenario.unreadable_primary Scenario.press
                               Scenario.first_run).2)
  = mkRun (Some (VStr "/tmp/river2.gpkg"))
          (Scenario.first_run !! "geojson")
          (Scenario.first_run !! "streams")
          (Scenario.first_run !! "snap_point")
          (Scenario.first_run !! "requested_point")
          (Scenario.first_run !! "map_center")
          (Scenario.first_run !! "map_bounds").
Proof.
  apply (run_installation Scenario.unreadable_primary Scenario.press
           Scenario.first_run Scenario.bogota);
    [reflexivity | reflexivity | by vm_compute].
Defined.

(** C1, as the specification has it, fails: after a complete first run, a
    second run whose primary layer cannot be read leaves a stored run that
    is neither the first one nor a new one: the path is the second
    artifact's, the layers and the viewport are the first run's. *)
Lemma run_replacement_is_not_atomic :
  ~ Spec.atomic_replacement Scenario.unreadable_primary "/tmp/river2.gpkg"
      Scenario.first_run
      (session (interaction Scenario.unreadable_primary Scenario.press
                            Scenario.first_run).2).
Proof.
  intros [H|H]; vm_compute in H; discriminate H.
Qed.

(** C3, as the script has it.  Loading never raises.  It succeeds exactly
    when the layers can be listed and the primary layer can be read.  It
    then shows one warning for each overlay that cannot be read, in the
    order streams, snap point, requested point, followed by the warning on
    the bounds if one of them is NaN; it stores every overlay that can be
    read, and an overlay that cannot be read is absent afterwards in a
    session that held none. *)
Theorem overlay_independence w p s :
  (load_layers w p (mkStore s [] [])).1 = Val tt /\
  (Spec.load_succeeded (page (load_layers w p (mkStore s [] [])).2) <->
     is_Some (listlayers w p) /\ is_Some (read_file w p None)) /\
  (forall gdf, is_Some (listlayers w p) -> read_file w p None = Some gdf ->
     warnings (page (load_layers w p (mkStore s [] [])).2)
     = (snd <$> Spec.unreadable w p)
       ++ (if existsb is_nan (bounds_list (total_bounds gdf))
           then [InvalidBounds] else []) /\
     Forall (fun k =>
        match read_file w p (Some k.1.2) with
        | Some g =>
            session (load_layers w p (mkStore s [] [])).2 !! k.1.1
            = Some (VStr (to_json g))
        | None =>
            s !! k.1.1 = None ->
            session (load_layers w p (mkStore s [] [])).2 !! k.1.1 = None
        end) Spec.overlay_kinds).
Proof.
  rewrite load_layers_exec. cbn [fst snd page session app].
  unfold Spec.load_succeeded, load_messages, loaded_session.
  split; [done|]. split.
  - destruct (listlayers w p) as [ls|].
    + destruct (read_file w p None) as [gdf|]; cbn.
      * split; [eauto|intros _]. unfold errors. fold (errors (overlay_warnings w p ++ viewport_messages (total_bounds gdf))).
        rewrite errors_app. unfold overlay_warnings, viewport_messages.
        rewrite !errors_app.
        by destruct (read_file w p (Some "streams")),
             (read_file w p (Some "snap_point")),
             (read_file w p (Some "pour_point")),
             (existsb invalid_bound (bounds_list (total_bounds gdf))).
      * split; [done|]. by intros [_ []].
    + split; [done|]. by intros [[] _].
  - intros gdf [ls Hl] Hg. rewrite Hl, Hg.
    unfold Spec.unreadable, Spec.overlay_kinds, overlay_warnings,
      viewport_messages, store_viewport, overlays_session.
    change (existsb invalid_bound (bounds_list (total_bounds gdf)))
      with (existsb is_nan (bounds_list (total_bounds gdf))).
    rewrite !Forall_cons. cbn [List.filter fst snd].
    destruct (existsb is_nan (bounds_list (total_bounds gdf)));
      destruct (read_file w p (Some "streams"));
      destruct (read_file w p (Some "snap_point"));
      destruct (read_file w p (Some "pour_point"));
      cbn [store_layer layer_warning]; (split; [done|]);
      repeat split; intros; by simplify_map_eq.
Qed.

(** C3, as the specification has it, fails: when fiona cannot list the
    layers of the artifact, the load fails although the primary layer is
    one geopandas can read. *)
Lemma load_fails_without_listing :
  ~ Spec.succeeds_iff_primary_readable Scenario.unlisted "/tmp/river2.gpkg" ∅.
Proof.
  intros [_ H]. assert (He : is_Some (read_file Scenario.unlisted
                                       "/tmp/river2.gpkg" None)) by by eexists.
  specialize (H He). vm_compute in H. discriminate H.
Qed.

(** C9, as the script has it.  The download buttons read the session and
    leave it as it is.  The GeoPackage is offered exactly when the session
    holds an artifact path and the file at that path can be opened; when
    it cannot be opened the script raises and shows no button.  The GeoJSON
    is offered exactly when the session holds a primary layer and the first
    button did not raise.  A run stores the artifact path as soon as the
    file exists, before any layer is loaded. *)
Theorem downloads_follow_session_keys w wid s :
  session (downloads w wid (mkStore s [] [])).2 = s /\
  (s !! "gpkg_path" = None ->
     (downloads w wid (mkStore s [] [])).1 = Val tt /\
     offered "Download GeoPackage"
             (page (downloads w wid (mkStore s [] [])).2) = []) /\
  (forall p data, s !! "gpkg_path" = Some (VStr p) ->
     open_read w p = Some data ->
     (downloads w wid (mkStore s [] [])).1 = Val tt /\
     offered "Download GeoPackage"
             (page (downloads w wid (mkStore s [] [])).2) = [DBytes data]) /\
  (forall p, s !! "gpkg_path" = Some (VStr p) -> open_read w p = None ->
     (downloads w wid (mkStore s [] [])).1 = Exc (OpenError p) /\
     page (downloads w wid (mkStore s [] [])).2 = []) /\
  ((downloads w wid (mkStore s [] [])).1 = Val tt ->
     offered "Download GeoJSON" (page (downloads w wid (mkStore s [] [])).2)
     = match s !! "geojson" with Some g => [DText g] | None => [] end) /\
  (forall i s0 c p,
     reset_clicked i = false -> delineate_clicked i = true ->
     s0 !! "last_click" = Some (VLatLng c) ->
     delineate_point w (lat c) (lng c) (text_input "custom" (wid_text i))
                     (area_input i) = Some p ->
     path_exists w p = true ->
     session (interaction w i s0).2 !! "gpkg_path" = Some (VStr p)).
Proof.
  split; [apply downloads_session|].
  split; [|split; [|split; [|split]]].
  - intros Hn. rewrite downloads_exec, Hn. unfold geojson_button.
    by destruct (s !! "geojson").
  - intros p data Hp Ho. rewrite downloads_exec, Hp, Ho.
    unfold geojson_button. by destruct (s !! "geojson").
  - intros p Hp Ho. by rewrite downloads_exec, Hp, Ho.
  - rewrite downloads_exec. unfold geojson_button.
    destruct (s !! "gpkg_path") as [[]|]; try done.
    + destruct (open_read w s0); [|done]. by destruct (s !! "geojson").
    + by destruct (s !! "geojson").
  - intros i s0 c p Hr Hd Hc Hp He.
    rewrite interaction_no_reset, (script_triggered _ _ _ _ Hr Hd Hc), Hp
      by done.
    rewrite finish_other by done.
    unfold run_session. rewrite He, loaded_session_path.
    apply lookup_insert_eq.
Qed.

(** C9, as the specification has it, fails: in a new session, a run whose
    primary layer cannot be read shows the load error, and the GeoPackage
    of that run is offered for download all the same. *)
Lemma failed_run_offers_geopackage :
  ~ Spec.export_absent_iff_no_success
      (page (interaction Scenario.unreadable_primary Scenario.press
                         Scenario.clicked).2).
Proof.
  intros [_ H].
  assert (Hf : ~ Spec.run_succeeded
                 (page (interaction Scenario.unreadable_primary Scenario.press
                                    Scenario.clicked).2)).
  { intros [_ He]. vm_compute in He. discriminate He. }
  specialize (H Hf). vm_compute in H. discriminate H.
Qed.

(** C10.  Every map the script displays has zoom level 9 and is centred on
    the [map_center] of the session, or on [[4.6, -74.1]] when the session
    holds none.  After a reset the session holds none, and the one map
    displayed is centred on the default.  In a session that holds none, an
    interaction without a run displays one map, centred on the default.  A
    centre enters the session only through a run that has read the primary
    layer and found no NaN among its bounds. *)
Theorem default_map_center w i s :
  (forall m, m ∈ rendered_maps (page (interaction w i s).2) ->
     zoom_start m = 9%Z /\
     location m
     = default default_center
               (session (interaction w i s).2 !! "map_center")) /\
  (reset_clicked i = true ->
     session (interaction w i s).2 !! "map_center" = None /\
     exists m, rendered_maps (page (interaction w i s).2) = [m] /\
               location m = default_center /\ zoom_start m = 9%Z) /\
  (reset_clicked i = false -> delineate_clicked i = false ->
   s !! "map_center" = None ->
     session (interaction w i s).2 !! "map_center" = None /\
     exists m, rendered_maps (page (interaction w i s).2) = [m] /\
               location m = default_center /\ zoom_start m = 9%Z) /\
  (reset_clicked i = false ->
   session (interaction w i s).2 !! "map_center" <> s !! "map_center" ->
     exists c p gdf,
       s !! "last_click" = Some (VLatLng c) /\
       delineate_clicked i = true /\
       delineate_point w (lat c) (lng c) (text_input "custom" (wid_text i))
                       (area_input i) = Some p /\
       path_exists w p = true /\
       read_file w p None = Some gdf /\
       existsb is_nan (bounds_list (total_bounds gdf)) = false /\
       session (interaction w i s).2 !! "map_center"
       = Some (center_value (total_bounds gdf))).
Proof.
  split; [|split; [|split]].
  - intros m Hm.
    destruct (interaction_maps w i s) as [H|(s' & H & Hs)];
      rewrite H in Hm; [by apply elem_of_nil in Hm|].
    apply list_elem_of_singleton in Hm as ->.
    rewrite Hs. split; [apply scene_zoom|apply scene_location].
  - intros Hr. rewrite interaction_reset by done.
    rewrite finish_maps, finish_other by done.
    rewrite map_drawn_default by by rewrite lookup_insert_ne.
    split; [by rewrite lookup_insert_ne|]. eexists. split; [done|].
    rewrite scene_zoom, scene_location. by rewrite lookup_insert_ne.
  - intros Hr Hd Hn. rewrite interaction_no_reset by done.
    destruct (ensure_click_lookup s) as (v & Hv & _).
    erewrite script_idle; [|done|exact Hv|by rewrite Hd, andb_false_r].
    rewrite finish_maps, finish_other by done.
    rewrite map_drawn_default by by rewrite ensure_click_other.
    rewrite ensure_click_other by done.
    split; [done|]. eexists. split; [done|].
    rewrite scene_zoom, scene_location.
    by rewrite ensure_click_other, Hn by done.
  - intros Hr Hne. rewrite interaction_no_reset in * by done.
    destruct (script_outcome w i s Hr) as [(v & _ & _ & H)|[(c & Hc & Hd)|H]].
    + rewrite H, finish_other in Hne by done.
      by rewrite ensure_click_other in Hne.
    + rewrite (script_triggered _ _ _ _ Hr Hd Hc) in *.
      destruct (delineate_point _ _ _ _ _) as [p|] eqn:Hp; [|done].
      rewrite finish_other in * by done.
      unfold run_session in *.
      destruct (path_exists w p) eqn:He; [|done].
      rewrite loaded_session_center in *.
      destruct (listlayers w p);
        [destruct (read_file w p None) as [gdf|] eqn:Hg|];
        try (by rewrite lookup_insert_ne in Hne).
      destruct (existsb is_nan (bounds_list (total_bounds gdf))) eqn:Hb;
        [by rewrite lookup_insert_ne in Hne|].
      by exists c, p, gdf.
    + by rewrite H in Hne.
Qed.

(** C2.  After a complete first run, a second run the artifact of which
    has no streams layer succeeds and warns that the streams are not found;
    the session then holds the primary layer of the second run and the
    streams of the first, and the map draws both. *)
Theorem stale_streams_survive_new_run :
  Spec.run_succeeded
    (page (interaction Scenario.no_streams Scenario.press
                       Scenario.first_run).2) /\
  warnings (page (interaction Scenario.no_streams Scenario.press
                              Scenario.first_run).2) = [StreamsNotFound] /\
  read_file Scenario.no_streams "/tmp/river2.gpkg" (Some "streams") = None /\
  primaryLayer (run_of (session (interaction Scenario.no_streams
                                   Scenario.press Scenario.first_run).2))
  = Some (VStr "river2 watershed") /\
  streamsLayer (run_of (session (interaction Scenario.no_streams
                                   Scenario.press Scenario.first_run).2))
  = Some (VStr "river1 streams") /\
  (children <$> rendered_maps
      (page (interaction Scenario.no_streams Scenario.press
                         Scenario.first_run).2))
  = [[LatLngPopup;
      GeoJson (VStr "river2 watershed") "Watershed" (Some watershed_style)
              None "Watershed";
      GeoJson (VStr "river1 streams") "Rivers" (Some rivers_style) None
              "Rivers";
      GeoJson (VStr "river2 pour_point") "Requested" None
              (Some requested_marker) "Requested outlet";
      GeoJson (VStr "river2 snap_point") "Snapped to river centerline" None
              (Some snapped_marker) "Snapped outlet";
      LayerControl]].
Proof. by vm_compute. Qed.

End Properties.

(** ** Further properties of the script *)

Section Sessions.
Import App Effect.

(** Reset, lines 13-19.  Whatever the session held and whatever else was
    pressed, an execution with Reset pressed returns, calls the routine not
    at all, and leaves a session holding [last_click] alone: the click the
    map reports, or [None].  Its page is one map and nothing else: centred
    on the default, with no layer, no fitted bounds and no download. *)
Theorem reset_gives_new_session w i s :
  reset_clicked i = true ->
  (interaction w i s).1 = Val tt /\
  session (interaction w i s).2
  = <["last_click" := from_option VLatLng VNone (last_clicked i)]> ∅ /\
  calls (interaction w i s).2 = [] /\
  page (interaction w i s).2
  = [StFolium (mkMap default_center 9 "OpenStreetMap"
                     [LatLngPopup; LayerControl] None)].
Proof.
  intros Hr. rewrite interaction_reset by done.
  set (s0 := <["last_click" := VNone]> (∅ : gmap string Value)).
  assert (H0 : forall k, k <> "last_click" -> s0 !! k = None).
  { intros k Hk. unfold s0. by rewrite lookup_insert_ne, lookup_empty. }
  assert (Hs : scene w s0
    = mkMap default_center 9 "OpenStreetMap" [LatLngPopup; LayerControl] None).
  { unfold scene, fit, draw. by rewrite !H0 by done. }
  rewrite finish_exec, downloads_exec, Hs.
  unfold geojson_button, fit_warning.
  rewrite !captured_other, !H0 by done. cbn [fst snd session page calls app].
  repeat split. unfold captured, s0. cbn [released last_clicked].
  destruct (last_clicked i) as [c|]; cbn [from_option]; [|done].
  apply insert_insert_eq.
Qed.

Lemma reset_gives_new_session_witness :
  session (interaction Scenario.complete Scenario.reset
                       Scenario.first_run).2
  = <["last_click" := VNone]> ∅.
Proof.
  by destruct (reset_gives_new_session Scenario.complete Scenario.reset
                 Scenario.first_run) as (_ & H & _); [reflexivity|].
Defined.

(** The routine raising, line 36.  The exception leaves the script: the
    execution ends there, with the selected point and the spinner on the
    page and no map and no download below them; the session is exactly the
    one before, so the click the map reports in that execution is lost. *)
Theorem routine_failure_aborts w i s c :
  reset_clicked i = false ->
  delineate_clicked i = true ->
  s !! "last_click" = Some (VLatLng c) ->
  delineate_point w (lat c) (lng c) (text_input "custom" (wid_text i))
                  (area_input i) = None ->
  interaction w i s
  = (Exc DelineatorError,
     mkStore s [StWrite (SelectedPoint (lat c) (lng c)); StSpinner]
             [mkCall (lat c) (lng c) (text_input "custom" (wid_text i))
                     (area_input i)]).
Proof.
  intros Hr Hd Hc Hp.
  by rewrite interaction_no_reset, (script_triggered _ _ _ _ Hr Hd Hc), Hp.
Qed.

Lemma routine_failure_aborts_witness :
  session (interaction Scenario.failing Scenario.press_elsewhere
                       Scenario.first_run).2 = Scenario.first_run.
Proof.
  rewrite (routine_failure_aborts Scenario.failing Scenario.press_elsewhere
             Scenario.first_run Scenario.bogota);
    [reflexivity | reflexivity | reflexivity | by vm_compute | reflexivity].
Defined.

(** The order of lines 31-36 and 143-144.  A run is computed for the click
    the session held when Delineate was pressed; the click the map of the
    same execution reports is stored afterwards and is the point of the next
    run.  When that execution displays no map, folium having refused the
    stored centre, the session keeps the click it held. *)
Theorem run_uses_stored_click w i s c c' p :
  reset_clicked i = false ->
  delineate_clicked i = true ->
  s !! "last_click" = Some (VLatLng c) ->
  last_clicked i = Some c' ->
  delineate_point w (lat c) (lng c) (text_input "custom" (wid_text i))
                  (area_input i) = Some p ->
  calls (interaction w i s).2
  = [mkCall (lat c) (lng c) (text_input "custom" (wid_text i))
            (area_input i)] /\
  (rendered_maps (page (interaction w i s).2) <> [] ->
   session (interaction w i s).2 !! "last_click" = Some (VLatLng c')) /\
  (rendered_maps (page (interaction w i s).2) = [] ->
   session (interaction w i s).2 !! "last_click" = Some (VLatLng c)).
Proof.
  intros Hr Hd Hc Hl Hp.
  rewrite interaction_no_reset, (script_triggered _ _ _ _ Hr Hd Hc), Hp
    by done.
  rewrite finish_calls, finish_session, finish_maps.
  rewrite maps_app, run_messages_maps. cbn [rendered_maps omap app].
  split; [done|].
  destruct (map_drawn (run_session w p s)); split; try done.
  - intros _. unfold captured. rewrite Hl. apply lookup_insert_eq.
  - intros _. by rewrite run_session_click.
Qed.

Lemma run_uses_stored_click_witness :
  calls (interaction Scenario.complete Scenario.press_elsewhere
                     Scenario.clicked).2
  = [mkCall (lat Scenario.bogota) (lng Scenario.bogota) "custom" None] /\
  session (interaction Scenario.complete Scenario.press_elsewhere
                       Scenario.clicked).2 !! "last_click"
  = Some (VLatLng Scenario.zipaquira).
Proof.
  destruct (run_uses_stored_click Scenario.complete Scenario.press_elsewhere
              Scenario.clicked Scenario.bogota Scenario.zipaquira
              "/tmp/river1.gpkg") as (H1 & H2 & _);
    [reflexivity | reflexivity | by vm_compute | reflexivity | reflexivity |].
  split; [exact H1|]. apply H2. vm_compute. discriminate.
Defined.

(** Drawing the page again.  An execution with no button pressed and no
    click reported, in a session that has its [last_click] key, leaves the
    session as it was, calls the routine not at all and shows no error.  It
    displays one map when the session holds no centre, or a centre of two
    floats neither of which is NaN; when one of them is NaN, folium refuses
    the centre and no map is displayed. *)
Theorem rerun_keeps_session w i s :
  reset_clicked i = false ->
  delineate_clicked i = false ->
  last_clicked i = None ->
  is_Some (s !! "last_click") ->
  session (interaction w i s).2 = s /\
  calls (interaction w i s).2 = [] /\
  errors (page (interaction w i s).2) = [] /\
  (s !! "map_center" = None ->
   length (rendered_maps (page (interaction w i s).2)) = 1) /\
  (forall a b, s !! "map_center" = Some (VList [VFloat a; VFloat b]) ->
   length (rendered_maps (page (interaction w i s).2))
   = if is_nan a || is_nan b then 0 else 1).
Proof.
  intros Hr Hd Hl [v Hv]. rewrite interaction_no_reset by done.
  erewrite script_idle; [|done| |by rewrite Hd, andb_false_r].
  2:{ by rewrite (ensure_click_present _ _ Hv). }
  rewrite finish_session, finish_calls, finish_errors, finish_maps.
  rewrite (ensure_click_present _ _ Hv). unfold captured. rewrite Hl.
  split; [by destruct (map_drawn s)|]. split; [done|]. split; [done|].
  split.
  - intros Hn. by rewrite (map_drawn_default _ Hn).
  - intros a b Hab. unfold map_drawn, centre. rewrite Hab.
    change (valid_location
              (default default_center (Some (VList [VFloat a; VFloat b]))))
      with (negb (is_nan a || is_nan b)).
    by destruct (is_nan a || is_nan b).
Qed.

Lemma rerun_keeps_session_witness :
  session (interaction Scenario.complete Scenario.idle Scenario.first_run).2
  = Scenario.first_run.
Proof.
  destruct (rerun_keeps_session Scenario.complete Scenario.idle
              Scenario.first_run) as (H & _);
    [reflexivity | reflexivity | reflexivity
    | eexists; vm_compute; reflexivity | exact H].
Defined.

(** The guard of line 31.  The routine is called at most once in an
    execution, and only when Reset is not pressed, Delineate is pressed and
    the session holds a click; the call is then made for that click. *)
Theorem routine_called_only_on_request w i s :
  calls (interaction w i s).2 = [] \/
  (reset_clicked i = false /\ delineate_clicked i = true /\
   exists c, s !! "last_click" = Some (VLatLng c) /\
     calls (interaction w i s).2
     = [mkCall (lat c) (lng c) (text_input "custom" (wid_text i))
               (area_input i)]).
Proof.
  destruct (reset_clicked i) eqn:Hr.
  - left. rewrite interaction_reset by done. apply finish_calls.
  - rewrite interaction_no_reset by done.
    destruct (script_outcome w i s Hr) as [(v & _ & _ & H)|[(c & Hc & Hd)|H]].
    + left. rewrite H. apply finish_calls.
    + right. split; [done|]. split; [done|]. exists c. split; [done|].
      rewrite (script_triggered _ _ _ _ Hr Hd Hc).
      destruct (delineate_point _ _ _ _ _); [|done]. apply finish_calls.
    + left. by rewrite H.
Qed.

End Sessions.

(** ** Sessions reached from the empty one *)

Section Reachable.
Import App Effect.

Ltac wf_lookup :=
  repeat (rewrite lookup_insert_eq || rewrite lookup_insert_ne by done);
  repeat match goal with
         | H : context [<[_:=_]> _ !! _] |- _ =>
             rewrite lookup_insert_eq in H
             || rewrite lookup_insert_ne in H by done
         end.

Ltac wf_solve := repeat split; intros; wf_lookup; try tauto; eauto.

Lemma wf_empty : well_formed ∅.
Proof.
  unfold well_formed. rewrite !lookup_empty.
  repeat split; auto; by intros [? ?].
Qed.

Lemma wf_captured i s : well_formed s -> well_formed (captured i s).
Proof.
  unfold well_formed, captured. intros (H1 & H2 & H3 & H4 & H5 & H6 & H7 & H8).
  destruct (last_clicked i); [|done]. wf_solve.
Qed.

Lemma wf_ensure_click s : well_formed s -> well_formed (ensure_click s).
Proof.
  unfold well_formed, ensure_click.
  intros (H1 & H2 & H3 & H4 & H5 & H6 & H7 & H8).
  destruct (s !! "last_click") eqn:Hc; [by rewrite Hc|]. wf_solve.
Qed.

Lemma wf_run_session w p s : well_formed s -> well_formed (run_session w p s).
Proof.
  unfold run_session. destruct (path_exists w p); [|done].
  unfold well_formed, loaded_session.
  intros (H1 & H2 & H3 & H4 & H5 & H6 & H7 & H8).
  destruct (listlayers w p); [destruct (read_file w p None) as [gdf|]|];
    [|wf_solve..].
  unfold store_viewport, overlays_session.
  destruct (existsb invalid_bound (bounds_list (total_bounds gdf)));
    destruct (read_file w p (Some "streams"));
    destruct (read_file w p (Some "snap_point"));
    destruct (read_file w p (Some "pour_point"));
    cbn [store_layer]; wf_solve.
Qed.

(** The session an interaction leaves: that of one of four paths, with
    the reported click captured when the script got as far as line 144. *)
Lemma interaction_session_cases w i s :
  exists s',
    (s' = s \/ s' = <["last_click" := VNone]> ∅ \/ s' = ensure_click s \/
     exists p, s' = run_session w p s) /\
    (session (interaction w i s).2 = s' \/
     session (interaction w i s).2 = captured i s').
Proof.
  assert (Hfin : forall i' s' pg cl,
    last_clicked i' = last_clicked i ->
    session (finish w i' (mkStore s' pg cl)).2 = s' \/
    session (finish w i' (mkStore s' pg cl)).2 = captured i s').
  { intros i' s' pg cl Hi. rewrite finish_session.
    destruct (map_drawn s'); [right|by left].
    unfold captured. by rewrite Hi. }
  destruct (reset_clicked i) eqn:Hr.
  - eexists. split; [right; left; reflexivity|].
    rewrite interaction_reset by done. by apply Hfin.
  - rewrite interaction_no_reset by done.
    destruct (script_outcome w i s Hr) as [(v & _ & _ & H)|[(c & Hc & Hd)|H]].
    + eexists. split; [right; right; left; reflexivity|].
      rewrite H. by apply Hfin.
    + rewrite (script_triggered _ _ _ _ Hr Hd Hc).
      destruct (delineate_point _ _ _ _ _) as [p|].
      * eexists. split; [right; right; right; eexists; reflexivity|].
        by apply Hfin.
      * exists s. split; [by left|by left].
    + exists s. split; [by left|]. left. by rewrite H.
Qed.

Lemma wf_interaction w i s :
  well_formed s -> well_formed (session (interaction w i s).2).
Proof.
  intros Hs.
  destruct (interaction_session_cases w i s) as (s' & Hs' & Hr).
  assert (well_formed s').
  { destruct Hs' as [->|[->|[->|[p ->]]]].
    - done.
    - change (well_formed (ensure_click ∅)). apply wf_ensure_click, wf_empty.
    - by apply wf_ensure_click.
    - by apply wf_run_session. }
  destruct Hr as [-> | ->]; [done|by apply wf_captured].
Qed.

Lemma wf_replay steps s : well_formed s -> well_formed (replay steps s).
Proof.
  revert s. induction steps as [|[w i] steps IH]; intros s Hs; [done|].
  cbn [replay]. by apply IH, wf_interaction.
Qed.

Lemma captured_has_click i s :
  is_Some (s !! "last_click") -> is_Some (captured i s !! "last_click").
Proof.
  unfold captured. destruct (last_clicked i); [|done].
  rewrite lookup_insert_eq. eauto.
Qed.

Lemma finish_has_click w i s pg cl :
  is_Some (s !! "last_click") ->
  is_Some (session (finish w i (mkStore s pg cl)).2 !! "last_click").
Proof.
  intros H. rewrite finish_session.
  destruct (map_drawn s); [by apply captured_has_click|done].
Qed.

(** The ways an execution without reset can go, in a well-formed session:
    the value of [last_click] is a click whenever it is truthy. *)
Lemma script_outcome_wf w i s :
  reset_clicked i = false ->
  well_formed s ->
  script w i (mkStore s [] []) = finish w i (mkStore (ensure_click s) [] [])
  \/ exists c, s !! "last_click" = Some (VLatLng c) /\
               delineate_clicked i = true.
Proof.
  intros Hr (H1 & _). destruct (ensure_click_lookup s) as (v & Hv & Hs).
  destruct (truthy v && delineate_clicked i) eqn:Ht.
  - apply andb_true_iff in Ht as [Ht Hd]. right.
    destruct Hs as [Hs|[_ ->]]; [|done].
    destruct H1 as [H1|[H1|[c H1]]]; rewrite H1 in Hs.
    + done.
    + by injection Hs as <-.
    + exists c. by rewrite H1.
  - left. by eapply script_idle.
Qed.

Lemma ct_captured i s : centre_typed s -> centre_typed (captured i s).
Proof. unfold centre_typed. by rewrite captured_other. Qed.

Lemma ct_ensure_click s : centre_typed s -> centre_typed (ensure_click s).
Proof. unfold centre_typed. by rewrite ensure_click_other. Qed.

Lemma ct_run_session w p s : centre_typed s -> centre_typed (run_session w p s).
Proof.
  unfold centre_typed, run_session. intros Hs.
  destruct (path_exists w p); [|done].
  rewrite loaded_session_center, lookup_insert_ne by done.
  destruct (listlayers w p); [|done].
  destruct (read_file w p None) as [gdf|]; [|done].
  destruct (existsb is_nan (bounds_list (total_bounds gdf))); [done|].
  right. unfold center_value. eauto.
Qed.

Lemma ct_interaction w i s :
  centre_typed s -> centre_typed (session (interaction w i s).2).
Proof.
  intros Hs.
  destruct (interaction_session_cases w i s) as (s' & Hs' & Hr).
  assert (centre_typed s').
  { destruct Hs' as [->|[->|[->|[p ->]]]].
    - done.
    - left. by rewrite lookup_insert_ne.
    - by apply ct_ensure_click.
    - by apply ct_run_session. }
  destruct Hr as [-> | ->]; [done|by apply ct_captured].
Qed.

Lemma ct_replay steps s : centre_typed s -> centre_typed (replay steps s).
Proof.
  revert s. induction steps as [|[w i] steps IH]; intros s Hs; [done|].
  cbn [replay]. by apply IH, ct_interaction.
Qed.

(** The end of the script in a session of the expected shape: it returns,
    or the GeoPackage cannot be opened, or folium refuses a centre one
    coordinate of which is NaN. *)
Lemma finish_expected w i s pg cl :
  well_formed s -> centre_typed s ->
  expected_result (finish w i (mkStore s pg cl)).1 /\
  ((finish w i (mkStore s pg cl)).1 = Exc ValueError ->
   exists a b,
     session (finish w i (mkStore s pg cl)).2 !! "map_center"
     = Some (VList [VFloat a; VFloat b]) /\
     is_nan a || is_nan b = true).
Proof.
  intros (_ & H2 & _) Hc. rewrite finish_other by done.
  rewrite finish_exec. unfold map_drawn, centre.
  destruct Hc as [-> |(a & b & ->)].
  - change (valid_location (default default_center None)) with true.
    cbn iota. rewrite downloads_exec, captured_other by done.
    destruct H2 as [-> |[p ->]]; [done|]. by destruct (open_read w p).
  - change (valid_location
              (default default_center (Some (VList [VFloat a; VFloat b]))))
      with (negb (is_nan a || is_nan b)).
    destruct (is_nan a || is_nan b) eqn:Hn; cbn [negb].
    + split; [done|]. intros _. by exists a, b.
    + rewrite downloads_exec, captured_other by done.
      destruct H2 as [-> |[p ->]]; [done|]. by destruct (open_read w p).
Qed.

(** Reachable sessions, all lines.  Replaying any list of interactions
    from the empty session, whatever the collaborators answer, gives a
    session in which [last_click] is [None] or a click and [gpkg_path] is a
    string, the primary layer is stored only beside an artifact path, an
    overlay or a centre only beside a primary layer, and centre and bounds
    only together. *)
Theorem reachable_sessions_well_formed steps :
  well_formed (replay steps ∅).
Proof. apply wf_replay, wf_empty. Qed.

(** Exceptions, all lines.  In a session reached from the empty one, an
    execution returns, or ends with the exception of the routine, with
    folium's [ValueError] on the location of the map, or with the exception
    of opening the stored GeoPackage: it never fails on a missing key or on
    a value of the wrong type.  It ends with the [ValueError] only when the
    centre stored in the session has a NaN coordinate. *)
Theorem reachable_sessions_raise_as_expected steps w i :
  expected_result (interaction w i (replay steps ∅)).1 /\
  ((interaction w i (replay steps ∅)).1 = Exc ValueError ->
   exists a b,
     session (interaction w i (replay steps ∅)).2 !! "map_center"
     = Some (VList [VFloat a; VFloat b]) /\
     is_nan a || is_nan b = true).
Proof.
  pose proof (wf_replay steps ∅ wf_empty) as Hs.
  assert (Hc : centre_typed (replay steps ∅)) by (apply ct_replay; by left).
  destruct (reset_clicked i) eqn:Hr.
  - rewrite interaction_reset by done. apply finish_expected.
    + change (well_formed (ensure_click ∅)). apply wf_ensure_click, wf_empty.
    + left. by rewrite lookup_insert_ne.
  - rewrite interaction_no_reset by done.
    destruct (script_outcome_wf w i _ Hr Hs) as [H|(c & Hc' & Hd)].
    + rewrite H. apply finish_expected;
        [by apply wf_ensure_click|by apply ct_ensure_click].
    + rewrite (script_triggered _ _ _ _ Hr Hd Hc').
      destruct (delineate_point _ _ _ _ _) as [p|]; [|done].
      apply finish_expected; [by apply wf_run_session|by apply ct_run_session].
Qed.

(** The click key, lines 18-19.  After any interaction, in any session,
    reached or not, the session has its [last_click] key. *)
Theorem last_click_is_always_set w i s :
  is_Some (session (interaction w i s).2 !! "last_click").
Proof.
  destruct (reset_clicked i) eqn:Hr.
  - rewrite interaction_reset by done. apply finish_has_click.
    rewrite lookup_insert_eq. eauto.
  - rewrite interaction_no_reset by done.
    destruct (ensure_click_lookup s) as (v & Hv & Hs).
    destruct (truthy v && delineate_clicked i) eqn:Ht.
    + apply andb_true_iff in Ht as [Ht Hd].
      destruct Hs as [Hs|[_ ->]]; [|done].
      destruct v; try done.
      * erewrite script_type_error; eauto; cbn; eauto.
      * erewrite script_type_error; eauto; cbn; eauto.
      * erewrite script_type_error; eauto; cbn; eauto.
      * rewrite (script_triggered _ _ _ _ Hr Hd Hs).
        destruct (delineate_point _ _ _ _ _) as [p|]; cbn; [|eauto].
        apply finish_has_click. rewrite run_session_click. eauto.
    + erewrite script_idle by done. apply finish_has_click. eauto.
Qed.

(** The layer loading, lines 45-83.  It never raises, calls nothing of
    the routine, and writes no key but those of the layers and the
    viewport: [last_click], [gpkg_path] and any other key keep their
    values. *)
Theorem load_writes_layer_keys_only w p st k :
  k ∉ layer_keys ->
  (load_layers w p st).1 = Val tt /\
  calls (load_layers w p st).2 = calls st /\
  session (load_layers w p st).2 !! k = session st !! k.
Proof.
  intros Hk. destruct st as [s pg cl]. rewrite load_layers_exec.
  cbn [fst snd session calls]. by rewrite loaded_session_other.
Qed.

Lemma load_writes_layer_keys_only_witness :
  session (load_layers Scenario.no_streams "/tmp/river2.gpkg"
             (mkStore Scenario.first_run [] [])).2 !! "gpkg_path"
  = Scenario.first_run !! "gpkg_path".
Proof.
  apply (load_writes_layer_keys_only Scenario.no_streams "/tmp/river2.gpkg"
           (mkStore Scenario.first_run [] []) "gpkg_path").
  unfold layer_keys. rewrite !not_elem_of_cons.
  repeat split; try discriminate. apply not_elem_of_nil.
Defined.

End Reachable.

(** ** Runs and the page they leave *)

Section Pages.
Import App Effect.

Lemma warnings_downloads w wid s : warnings (download_buttons w wid s) = [].
Proof.
  induction (download_buttons_only w wid s) as [|e l (?&?&?&->) _ IH]; done.
Qed.

Lemma offered_run_messages l w p : offered l (run_messages w p) = [].
Proof.
  unfold run_messages, load_messages, overlay_warnings, viewport_messages.
  destruct (path_exists w p); [|done].
  destruct (listlayers w p); [|done].
  destruct (read_file w p None) as [gdf|]; [|done].
  by destruct (existsb invalid_bound (bounds_list (total_bounds gdf))),
       (read_file w p (Some "streams")),
       (read_file w p (Some "snap_point")),
       (read_file w p (Some "pour_point")).
Qed.

Lemma offered_fit_warning l w s : offered l (fit_warning w s) = [].
Proof. by destruct (fit_warning_cases w s) as [->| ->]. Qed.

Lemma draw_children key name style marker tooltip s m :
  children (draw key name style marker tooltip s m)
  = children m ++ drawn s key name style marker tooltip.
Proof.
  unfold draw, drawn. destruct (s !! key); [done|]. by rewrite app_nil_r.
Qed.

Lemma fit_children w s m : children (fit w s m) = children m.
Proof.
  unfold fit. destruct (s !! "map_bounds") as [b|]; [|done].
  by destruct (fit_bounds_ok w b).
Qed.

Lemma scene_children w s :
  children (scene w s)
  = [LatLngPopup]
    ++ drawn s "geojson" "Watershed" (Some watershed_style) None "Watershed"
    ++ drawn s "streams" "Rivers" (Some rivers_style) None "Rivers"
    ++ drawn s "requested_point" "Requested" None (Some requested_marker)
             "Requested outlet"
    ++ drawn s "snap_point" "Snapped to river centerline" None
             (Some snapped_marker) "Snapped outlet"
    ++ [LayerControl].
Proof.
  unfold scene. cbn [add_to children].
  rewrite fit_children, !draw_children. cbn [blank_map children].
  by rewrite <- !app_assoc.
Qed.

Lemma scene_fitted w s :
  fitted (scene w s)
  = match s !! "map_bounds" with
    | Some b => if fit_bounds_ok w b then Some b else None
    | None => None
    end.
Proof.
  unfold scene, fit. cbn [add_to fitted].
  destruct (s !! "map_bounds") as [b|];
    [destruct (fit_bounds_ok w b); [done|]|];
    by rewrite !(proj2 (proj2 (draw_view _ _ _ _ _ _ _))).
Qed.

Lemma scene_tiles w s : tiles (scene w s) = "OpenStreetMap".
Proof.
  unfold scene, fit, draw. cbn [add_to tiles].
  by repeat match goal with
            | |- context [match ?x with _ => _ end] => destruct x
            end.
Qed.

(** The map, lines 86-140.  Drawing the map changes neither the session
    nor the calls and shows no error.  It raises only at line 87, with a
    [ValueError] or a [TypeError] and the page as it was: never when the
    session holds no centre, and, when it holds a centre of two floats,
    exactly when one of them is NaN.  When it returns it has displayed
    exactly one map, on OpenStreetMap tiles; the map is fitted to the stored
    bounds exactly when the session holds bounds and folium accepts them,
    and when folium refuses them the page shows one warning and the map is
    displayed all the same, not fitted. *)
Theorem render_map_reads_session w s pg cl :
  session (render_map w (mkStore s pg cl)).2 = s /\
  calls (render_map w (mkStore s pg cl)).2 = cl /\
  errors (page (render_map w (mkStore s pg cl)).2) = errors pg /\
  (forall e, (render_map w (mkStore s pg cl)).1 = Exc e ->
     (e = ValueError \/ e = TypeError) /\
     page (render_map w (mkStore s pg cl)).2 = pg) /\
  (s !! "map_center" = None ->
     exists m, (render_map w (mkStore s pg cl)).1 = Val m) /\
  (forall a b, s !! "map_center" = Some (VList [VFloat a; VFloat b]) ->
     if is_nan a || is_nan b
     then (render_map w (mkStore s pg cl)).1 = Exc ValueError
     else exists m, (render_map w (mkStore s pg cl)).1 = Val m) /\
  (forall m, (render_map w (mkStore s pg cl)).1 = Val m ->
     rendered_maps (page (render_map w (mkStore s pg cl)).2)
     = rendered_maps pg ++ [m] /\
     tiles m = "OpenStreetMap" /\
     fitted m = match s !! "map_bounds" with
                | Some b => if fit_bounds_ok w b then Some b else None
                | None => None
                end /\
     warnings (page (render_map w (mkStore s pg cl)).2)
     = warnings pg
       ++ match s !! "map_bounds" with
          | Some b =>
              if fit_bounds_ok w b then []
              else [CouldNotFitBounds (exn_text FitBoundsError)]
          | None => []
          end).
Proof.
  rewrite render_map_exec.
  split; [by destruct (map_drawn s)|]. split; [by destruct (map_drawn s)|].
  split.
  { destruct (map_drawn s); [|done]. cbn [snd page].
    rewrite !errors_app.
    destruct (fit_warning_cases w s) as [->| ->]; by rewrite app_nil_r. }
  split.
  { destruct (map_drawn s); [done|]. intros e [= <-].
    split; [|done]. unfold location_error.
    destruct (centre s); auto. }
  split.
  { intros Hn. rewrite (map_drawn_default _ Hn). eauto. }
  split.
  { intros a b Hab. unfold map_drawn, centre. rewrite Hab.
    change (valid_location
              (default default_center (Some (VList [VFloat a; VFloat b]))))
      with (negb (is_nan a || is_nan b)).
    destruct (is_nan a || is_nan b); cbn [negb]; [done|eauto]. }
  destruct (map_drawn s); [|done]. intros m [= <-]. cbn [fst snd page].
  rewrite !maps_app, !warnings_app, scene_fitted, scene_tiles.
  unfold fit_warning.
  destruct (s !! "map_bounds") as [b|]; [destruct (fit_bounds_ok w b)|];
    cbn; by rewrite ?app_nil_r.
Qed.

(** The layers, lines 88-139.  A map the script displays holds the click
    popup first and the layer control last.  Between them it draws, in this
    order, the watershed, the rivers, the requested outlet and the snapped
    outlet, each exactly when its key is in the session and with the value
    stored there; the two outlets are circle markers of different colours.
    In a session with no stored centre the map is always displayed. *)
Theorem render_map_draws_stored_layers w s pg cl :
  (forall m, (render_map w (mkStore s pg cl)).1 = Val m ->
     children m
     = [LatLngPopup]
       ++ drawn s "geojson" "Watershed" (Some watershed_style) None
                "Watershed"
       ++ drawn s "streams" "Rivers" (Some rivers_style) None "Rivers"
       ++ drawn s "requested_point" "Requested" None (Some requested_marker)
                "Requested outlet"
       ++ drawn s "snap_point" "Snapped to river centerline" None
                (Some snapped_marker) "Snapped outlet"
       ++ [LayerControl]) /\
  (s !! "map_center" = None ->
     exists m, (render_map w (mkStore s pg cl)).1 = Val m) /\
  marker_color requested_marker <> marker_color snapped_marker.
Proof.
  rewrite render_map_exec. split; [|split; [|done]].
  - destruct (map_drawn s); [|done]. intros m [= <-]. apply scene_children.
  - intros Hn. rewrite (map_drawn_default _ Hn). eauto.
Qed.

End Pages.

Section Runs.
Import App Effect.

(** A complete run, lines 31-83.  When the artifact exists, its layers
    can be listed, the primary layer and the three overlays can be read and
    no bound is NaN, the run leaves the seven keys of a run holding the
    values of this artifact alone, whatever the session held before; the
    page announces the success and shows no error, and no warning either
    when folium accepts the new bounds. *)
Theorem complete_run_replaces_stored_run w i s c p ls gdf g1 g2 g3 :
  reset_clicked i = false ->
  delineate_clicked i = true ->
  s !! "last_click" = Some (VLatLng c) ->
  delineate_point w (lat c) (lng c) (text_input "custom" (wid_text i))
                  (area_input i) = Some p ->
  path_exists w p = true ->
  listlayers w p = Some ls ->
  read_file w p None = Some gdf ->
  read_file w p (Some "streams") = Some g1 ->
  read_file w p (Some "snap_point") = Some g2 ->
  read_file w p (Some "pour_point") = Some g3 ->
  existsb is_nan (bounds_list (total_bounds gdf)) = false ->
  run_of (session (interaction w i s).2)
  = mkRun (Some (VStr p)) (Some (VStr (to_json gdf)))
          (Some (VStr (to_json g1))) (Some (VStr (to_json g2)))
          (Some (VStr (to_json g3)))
          (Some (center_value (total_bounds gdf)))
          (Some (bounds_value (total_bounds gdf))) /\
  announces_success (page (interaction w i s).2) = true /\
  errors (page (interaction w i s).2) = [] /\
  (fit_bounds_ok w (bounds_value (total_bounds gdf)) = true ->
   warnings (page (interaction w i s).2) = []).
Proof.
  intros Hr Hd Hc Hp He Hl Hg H1 H2 H3 Hb.
  assert (Hb' : existsb invalid_bound (bounds_list (total_bounds gdf)) = false)
    by exact Hb.
  rewrite interaction_no_reset, (script_triggered _ _ _ _ Hr Hd Hc), Hp
    by done.
  rewrite finish_run_of, finish_success, finish_errors.
  assert (Hm : run_messages w p
    = [StSuccess DelineationComplete; StWrite (OutputFile p);
       StWrite (AvailableLayers ls);
       StWrite (CenterIs (center_value (total_bounds gdf)));
       StWrite (BoundsAre (bounds_value (total_bounds gdf)))]).
  { unfold run_messages, load_messages, overlay_warnings, viewport_messages.
    by rewrite He, Hl, Hg, H1, H2, H3, Hb'. }
  assert (Hs : run_session w p s
    = <["map_bounds" := bounds_value (total_bounds gdf)]>
        (<["map_center" := center_value (total_bounds gdf)]>
           (<["requested_point" := VStr (to_json g3)]>
              (<["snap_point" := VStr (to_json g2)]>
                 (<["streams" := VStr (to_json g1)]>
                    (<["geojson" := VStr (to_json gdf)]>
                       (<["gpkg_path" := VStr p]> s))))))).
  { unfold run_session, loaded_session, store_viewport, overlays_session.
    by rewrite He, Hl, Hg, H1, H2, H3, Hb'. }
  rewrite Hm. split; [|split; [done|split; [done|]]].
  - rewrite Hs. unfold run_of. by simplify_map_eq.
  - intros Hf. rewrite finish_page.
    destruct (map_drawn (run_session w p s)); [|done].
    rewrite !warnings_app, warnings_downloads.
    unfold fit_warning. rewrite Hs, lookup_insert_eq, Hf. done.
Qed.

Lemma complete_run_replaces_stored_run_witness :
  primaryLayer (run_of (session (interaction Scenario.complete Scenario.press
                                   Scenario.clicked).2))
  = Some (VStr "river1 watershed") /\
  warnings (page (interaction Scenario.complete Scenario.press
                              Scenario.clicked).2) = [].
Proof.
  destruct (complete_run_replaces_stored_run Scenario.complete Scenario.press
              Scenario.clicked Scenario.bogota "/tmp/river1.gpkg"
              ["watershed"; "streams"; "snap_point"; "pour_point"]
              (Scenario.watershed "river1")
              (Scenario.layer "river1 streams")
              (Scenario.layer "river1 snap_point")
              (Scenario.layer "river1 pour_point"))
    as (H1 & _ & _ & H4);
    [reflexivity | reflexivity | by vm_compute | reflexivity | reflexivity
    | reflexivity | reflexivity | reflexivity | reflexivity | reflexivity
    | reflexivity |].
  split; [by rewrite H1 | by apply H4].
Defined.

(** The announcement, lines 38-42.  The page announces that the
    delineation is complete exactly when a run was triggered, the routine
    returned a path and a file exists at that path: whether the layers
    then load has no part in it. *)
Theorem success_announced_iff_artifact_exists w i s :
  announces_success (page (interaction w i s).2) = true <->
  reset_clicked i = false /\ delineate_clicked i = true /\
  exists c p,
    s !! "last_click" = Some (VLatLng c) /\
    delineate_point w (lat c) (lng c) (text_input "custom" (wid_text i))
                    (area_input i) = Some p /\
    path_exists w p = true.
Proof.
  destruct (reset_clicked i) eqn:Hr.
  { rewrite interaction_reset by done. rewrite finish_success.
    split; [done|]. by intros [? _]. }
  rewrite interaction_no_reset by done.
  destruct (ensure_click_lookup s) as (v & Hv & Hs).
  destruct (truthy v && delineate_clicked i) eqn:Ht.
  - apply andb_true_iff in Ht as [Ht Hd].
    destruct Hs as [Hs|[_ ->]]; [|done].
    assert (Hno : (exists c : Click, v = VLatLng c) \/
      (script w i (mkStore s [] []) = (Exc TypeError, mkStore s [] []) /\
       forall c, v <> VLatLng c)).
    { destruct v; try done; [right..|left; eauto];
        (split; [by eapply script_type_error|done]). }
    destruct Hno as [[c ->]|[H Hn]].
    + rewrite (script_triggered _ _ _ _ Hr Hd Hs).
      destruct (delineate_point _ _ _ _ _) as [p|] eqn:Hp.
      * rewrite finish_success. unfold run_messages.
        destruct (path_exists w p) eqn:He.
        -- split; [intros _|done].
           split; [done|]. split; [done|]. by exists c, p.
        -- split; [done|]. intros (_ & _ & c' & p' & Hc' & Hp' & He').
           rewrite Hs in Hc'. injection Hc' as <-.
           rewrite Hp in Hp'. injection Hp' as <-. by rewrite He in He'.
      * split; [done|]. intros (_ & _ & c' & p' & Hc' & Hp' & _).
        rewrite Hs in Hc'. injection Hc' as <-. by rewrite Hp in Hp'.
    + rewrite H. split; [done|].
      intros (_ & _ & c' & _ & Hc' & _). rewrite Hs in Hc'.
      injection Hc' as ->. by destruct (Hn c').
  - erewrite script_idle by done. rewrite finish_success.
    split; [done|]. intros (_ & Hd & c & _ & Hc & _).
    rewrite (ensure_click_present _ _ Hc), Hc in Hv. injection Hv as <-.
    by rewrite Hd in Ht.
Qed.

(** Export and display, lines 91-102 and 154-160.  The GeoJSON the page
    offers for download is the watershed its map draws: both are the value
    of the [geojson] key at the end of the execution. *)
Theorem exported_geojson_is_displayed w i s g :
  DText g ∈ offered "Download GeoJSON" (page (interaction w i s).2) ->
  exists m,
    m ∈ rendered_maps (page (interaction w i s).2) /\
    GeoJson g "Watershed" (Some watershed_style) None "Watershed"
      ∈ children m.
Proof.
  assert (Hfin : forall i' s' pre cl,
    text_input "custom" (wid_text i') = text_input "custom" (wid_text i) ->
    offered "Download GeoJSON" pre = [] ->
    DText g ∈ offered "Download GeoJSON"
                      (page (finish w i' (mkStore s' pre cl)).2) ->
    exists m,
      m ∈ rendered_maps (page (finish w i' (mkStore s' pre cl)).2) /\
      GeoJson g "Watershed" (Some watershed_style) None "Watershed"
        ∈ children m).
  { intros i' s' pre cl Hw Hpre Hin. exists (scene w s').
    rewrite finish_maps. rewrite finish_page in Hin.
    destruct (map_drawn s');
      [|rewrite Hpre in Hin; by apply elem_of_nil in Hin].
    split; [set_solver|].
    rewrite !offered_app, Hpre, offered_fit_warning in Hin.
    cbn [app offered omap] in Hin.
    assert (Hg : s' !! "geojson" = Some g).
    { revert Hin. unfold download_buttons, geojson_button.
      rewrite !captured_other by done.
      destruct (s' !! "gpkg_path") as [[]|]; cbn;
        try (by intros ?%elem_of_nil);
        [destruct (open_read w s0); cbn; [|by intros ?%elem_of_nil]|];
        (destruct (s' !! "geojson"); cbn; [|by intros ?%elem_of_nil]);
        intros Hin%list_elem_of_singleton; by injection Hin as ->. }
    rewrite scene_children. unfold drawn at 1. rewrite Hg. set_solver. }
  destruct (reset_clicked i) eqn:Hr.
  { rewrite interaction_reset by done. by apply Hfin. }
  rewrite interaction_no_reset by done.
  destruct (script_outcome w i s Hr) as [(v & _ & _ & H)|[(c & Hc & Hd)|H]].
  - rewrite H. by apply Hfin.
  - rewrite (script_triggered _ _ _ _ Hr Hd Hc).
    destruct (delineate_point _ _ _ _ _) as [p|];
      [|by intros ?%elem_of_nil].
    apply Hfin; [done|]. by rewrite offered_app, offered_run_messages.
  - rewrite H. by intros ?%elem_of_nil.
Qed.

Lemma exported_geojson_is_displayed_witness :
  exists m,
    m ∈ rendered_maps (page (interaction Scenario.complete Scenario.press
                                         Scenario.clicked).2) /\
    GeoJson (VStr "river1 watershed") "Watershed" (Some watershed_style) None
            "Watershed" ∈ children m.
Proof.
  apply (exported_geojson_is_displayed Scenario.complete Scenario.press
           Scenario.clicked (VStr "river1 watershed")).
  vm_compute. apply list_elem_of_here.
Defined.

End Runs.

Section Keys.
Import App Effect.

Lemma insert_keeps_key (s : gmap string Value) k k' v :
  is_Some (s !! k) -> is_Some (<[k' := v]> s !! k).
Proof. intros H. apply lookup_insert_is_Some'. by right. Qed.

Lemma store_layer_keeps_key r key s k :
  is_Some (s !! k) -> is_Some (store_layer r key s !! k).
Proof. destruct r; [apply insert_keeps_key|done]. Qed.

Lemma run_session_keeps_key w p s k :
  is_Some (s !! k) -> is_Some (run_session w p s !! k).
Proof.
  intros H. unfold run_session. destruct (path_exists w p); [|done].
  unfold loaded_session.
  destruct (listlayers w p); [|by apply insert_keeps_key].
  destruct (read_file w p None) as [gdf|]; [|by apply insert_keeps_key].
  unfold store_viewport, overlays_session.
  destruct (existsb invalid_bound (bounds_list (total_bounds gdf)));
    repeat first [apply insert_keeps_key | apply store_layer_keeps_key];
    done.
Qed.

(** Keys, all lines.  Only Reset removes a key: after an execution
    without Reset, every key the session had is still in the session. *)
Theorem only_reset_removes_keys w i s k :
  reset_clicked i = false ->
  is_Some (s !! k) ->
  is_Some (session (interaction w i s).2 !! k).
Proof.
  intros Hr Hk. rewrite interaction_no_reset by done.
  assert (Hcap : forall s' pg cl, is_Some (s' !! k) ->
    is_Some (session (finish w i (mkStore s' pg cl)).2 !! k)).
  { intros s' pg cl H. rewrite finish_session.
    destruct (map_drawn s'); [|done].
    unfold captured. destruct (last_clicked i); [|done].
    by apply insert_keeps_key. }
  destruct (script_outcome w i s Hr) as [(v & _ & _ & H)|[(c & Hc & Hd)|H]].
  - rewrite H. apply Hcap. unfold ensure_click.
    destruct (s !! "last_click"); [done|]. by apply insert_keeps_key.
  - rewrite (script_triggered _ _ _ _ Hr Hd Hc).
    destruct (delineate_point _ _ _ _ _) as [p|]; [|done].
    by apply Hcap, run_session_keeps_key.
  - by rewrite H.
Qed.

Lemma only_reset_removes_keys_witness :
  is_Some (session (interaction Scenario.no_streams Scenario.press
                                Scenario.first_run).2 !! "streams").
Proof.
  apply (only_reset_removes_keys Scenario.no_streams Scenario.press
           Scenario.first_run "streams"); [reflexivity|].
  eexists. vm_compute. reflexivity.
Defined.

End Keys.
